(** * scrypted-matter: the Device Bridge Controller

    A shallow embedding of [MatterPlugin] (the plugin's main module), of the
    adapter registry [supportedTypes] and of the switch and light adapters,
    together with the properties of the namespaced store keys, of the
    enrollment state machine [tryEnableMixin], of the startup enumeration and
    of the event dispatcher [deviceListen].

    Conventions.
    - JavaScript strings are modelled as [string]; the only characters the
      code inspects are the ASCII separator ".", so the difference between
      UTF-16 code units and bytes plays no role.
    - [undefined] / [null] references are modelled with [option].
    - An [async] method is modelled as a computation over the plugin's
      world that either returns a value or throws; the world survives a
      throw, as the heap does in JavaScript. *)

From Stdlib Require Import ZArith String List Bool.
From stdpp Require Import base option list gmap strings.

(** ** Errors and results *)

Inductive Error : Type :=
| StorageError (msg : string)
| TypeError (msg : string)
| ExternalError (msg : string).

Inductive Result (A : Type) : Type :=
| Ok (a : A)
| Throw (e : Error).
Arguments Ok {A} a.
Arguments Throw {A} e.

Definition is_Throw {A} (r : Result A) : Prop :=
  match r with Throw _ => True | Ok _ => False end.

(** ** String primitives of the JavaScript runtime *)

Module StringPrototype.

(** [Array.prototype.join] on an array of strings. *)
Definition join (sep : string) (l : list string) : string :=
  String.concat sep l.

(** [String.prototype.startsWith]. *)
Definition startsWith (p s : string) : bool := String.prefix p s.

(** [String.prototype.includes]: [p] starts at some position of [s]. *)
Fixpoint includes (p s : string) : bool :=
  startsWith p s ||
  match s with
  | EmptyString => false
  | String _ s' => includes p s'
  end.

(** [String.prototype.endsWith]: some suffix of [s] is [p]. *)
Fixpoint endsWith (p s : string) : bool :=
  (if decide (s = p) then true else false) ||
  match s with
  | EmptyString => false
  | String _ s' => endsWith p s'
  end.

End StringPrototype.

Import StringPrototype.

(** ** The namespaced store: key construction *)

Definition storage_error_message : string :=
  "Context must not be an empty string!".

(** [MatterPlugin.buildStorageKey]. *)
Definition buildStorageKey (contexts : list string) (key : string) : Result string :=
  let contextKey := join "." contexts in
  if (String.length key =? 0)%nat
     || (String.length contextKey =? 0)%nat
     || includes ".." contextKey
     || startsWith "." contextKey
     || endsWith "." contextKey
  then Throw (StorageError storage_error_message)
  else Ok (contextKey +:+ "." +:+ key).

(** ** JavaScript values and truthiness *)

Inductive JsValue : Type :=
| JsUndefined
| JsNull
| JsBoolean (b : bool)
| JsNumber (n : Z)
| JsString (s : string)
| JsObject.

(** [ToBoolean]: what [!v] and [if (v)] test.  Numbers are integers here,
    so the only falsy number is 0. *)
Definition truthy (v : JsValue) : bool :=
  match v with
  | JsUndefined | JsNull => false
  | JsBoolean b => b
  | JsNumber n => negb (n =? 0)%Z
  | JsString s => negb (String.length s =? 0)%nat
  | JsObject => true
  end.

(** [Array.prototype.includes] on an array of strings. *)
Definition Array_includes (l : list string) (x : string) : bool :=
  bool_decide (x ∈ l).

(** ** Platform data (the SDK's types, as far as the plugin reads them) *)

(** String values of the SDK enum [ScryptedInterface]. *)
Module ScryptedInterface.
Definition ScryptedDevice : string := "ScryptedDevice".
Definition OnOff : string := "OnOff".
Definition Online : string := "Online".
Definition Battery : string := "Battery".
Definition ObjectDetector : string := "ObjectDetector".
End ScryptedInterface.

(** String values of the SDK enum [ScryptedDeviceType]. *)
Module ScryptedDeviceType.
Definition Switch : string := "Switch".
Definition Light : string := "Light".
Definition Outlet : string := "Outlet".
End ScryptedDeviceType.

Module ScryptedDevice.
Record t : Type := mk {
  id : string;
  name : string;
  type : string;
  interfaces : list string;
  mixins : option (list string)
}.
Definition with_mixins (l : list string) (d : t) : t :=
  {| id := id d; name := name d; type := type d;
     interfaces := interfaces d; mixins := Some l |}.
End ScryptedDevice.

Record EventDetails : Type := {
  eventInterface : string;
  property : string
}.

(** The enum [EventStatus] of the adapter contract.  A TypeScript enum
    without initialisers numbers its members from 0. *)
Module EventStatus.
Inductive t : Type := Handled | Unhandled | NotSupported.
Definition value (s : t) : Z :=
  match s with Handled => 0%Z | Unhandled => 1%Z | NotSupported => 2%Z end.
#[global] Instance eq_dec : EqDecision t.
Proof. solve_decision. Defined.
End EventStatus.

(** The enum [DeviceMixinStatus], the result of the enrollment machine. *)
Module DeviceMixinStatus.
Inductive t : Type := NotSupported | Setup | AlreadySetup.
Definition value (s : t) : Z :=
  match s with NotSupported => 0%Z | Setup => 1%Z | AlreadySetup => 2%Z end.
#[global] Instance eq_dec : EqDecision t.
Proof. solve_decision. Defined.
End DeviceMixinStatus.

(** A bridge node built by an adapter: the class of the node and the
    platform device its on/off listener drives. *)
Inductive Device : Type :=
| OnOffPluginUnitDevice (listener_for : string)
| OnOffLightDevice (listener_for : string).

Inductive DeviceCommand : Type := turnOn | turnOff.

(** The adapter contract [SupportedType].  An adapter has no state of its
    own: [discover] builds a node from the device it is given (or throws),
    [sendEvent] issues commands to that device, here the list of them in
    the order they are awaited, and reports a status (or throws). *)
Record SupportedType : Type := {
  discover : ScryptedDevice.t → Result (option Device);
  sendEvent : ScryptedDevice.t → EventDetails → JsValue →
              list DeviceCommand * Result EventStatus.t
}.

(** ** The world of the plugin *)

(** Calls into the platform that can be rejected. *)
Inductive PlatformCall : Type :=
| GetComponent (component : string)
| SetMixins (id : string) (mixins : list string).

(** What the plugin does to its collaborators: every call it makes is
    recorded, the newest first, in the [trace] of the world. *)
Inductive Effect : Type :=
| Platform (c : PlatformCall)
| RegistryHas (type : string)
| RegistryGet (type : string)
| CallDiscover (type id : string)
| CallAddBridgedDevice (node : option Device) (nodeLabel : string)
| CallSendEvent (type id eventInterface : string)
| Command (id : string) (c : DeviceCommand)
| CallListen (id eventInterface : string)
| ConsoleWarn (msg : string)
| ConsoleDebug (eventInterface property type : string)
| ServerStart.

Record World : Type := {
  (** [systemManager.getSystemState()], by device identifier *)
  systemState : gmap string ScryptedDevice.t;
  (** [storageSettings.values.defaultIncluded]: the enrollment record *)
  defaultIncluded : option (gmap string Z);
  (** [storageSettings.values.syncedDevices] *)
  syncedDevices : list string;
  (** [this.devices] *)
  devices : gmap string ScryptedDevice.t;
  (** the module variable [DEBUG] *)
  DEBUG : bool;
  trace : list Effect
}.

Definition set_systemState (m : gmap string ScryptedDevice.t) (w : World) : World :=
  {| systemState := m; defaultIncluded := defaultIncluded w;
     syncedDevices := syncedDevices w; devices := devices w;
     DEBUG := DEBUG w; trace := trace w |}.

Definition set_defaultIncluded (r : gmap string Z) (w : World) : World :=
  {| systemState := systemState w; defaultIncluded := Some r;
     syncedDevices := syncedDevices w; devices := devices w;
     DEBUG := DEBUG w; trace := trace w |}.

Definition set_devices (m : gmap string ScryptedDevice.t) (w : World) : World :=
  {| systemState := systemState w; defaultIncluded := defaultIncluded w;
     syncedDevices := syncedDevices w; devices := m;
     DEBUG := DEBUG w; trace := trace w |}.

Definition log (e : Effect) (w : World) : World :=
  {| systemState := systemState w; defaultIncluded := defaultIncluded w;
     syncedDevices := syncedDevices w; devices := devices w;
     DEBUG := DEBUG w; trace := e :: trace w |}.

(** ** Computations: state that survives exceptions *)

Definition M (A : Type) : Type := World → Result A * World.

Definition ret {A} (a : A) : M A := λ w, (Ok a, w).

Definition throw {A} (e : Error) : M A := λ w, (Throw e, w).

Definition bind {A B} (m : M A) (k : A → M B) : M B :=
  λ w, match m w with
       | (Ok a, w') => k a w'
       | (Throw e, w') => (Throw e, w')
       end.

Notation "'let*' x ':=' m 'in' k" := (bind m (λ x, k))
  (at level 10, x pattern, m at level 100, k at level 200).

Definition gets {A} (f : World → A) : M A := λ w, (Ok (f w), w).

Definition modify (f : World → World) : M unit := λ w, (Ok tt, f w).

Definition emit (e : Effect) : M unit := modify (log e).

Definition lift {A} (r : Result A) : M A := λ w, (r, w).

(** A call whose promise is not awaited: a rejection is not seen by the
    caller.  The call is run to its end here; the interleaving with what
    the caller does next is not modelled. *)
Definition detached (m : M unit) : M unit :=
  λ w, (Ok tt, snd (m w)).

(** [for (const x of l) { body }] *)
Fixpoint forEach {A} (l : list A) (body : A → M unit) : M unit :=
  match l with
  | [] => ret tt
  | x :: l' => let* _ := body x in forEach l' body
  end.

(** The value of the status and the world a run ends in. *)
Definition status_of {A} (r : Result A * World) : Result A := fst r.
Definition world_of {A} (r : Result A * World) : World := snd r.

(** ** The adapters *)

(** [supportedTypes.set(ScryptedDeviceType.Switch, ...)] *)
Definition switch_adapter : SupportedType := {|
  discover device :=
    if negb (Array_includes (ScryptedDevice.interfaces device) ScryptedInterface.OnOff)
    then Ok None
    else Ok (Some (OnOffPluginUnitDevice (ScryptedDevice.id device)));
  sendEvent device eventDetails eventData :=
    if negb (String.eqb (eventInterface eventDetails) ScryptedInterface.OnOff)
    then ([], Ok EventStatus.NotSupported)
    else ([if truthy eventData then turnOn else turnOff], Ok EventStatus.Handled)
|}.

(** [supportedTypes.set(ScryptedDeviceType.Light, ...)] *)
Definition light_adapter : SupportedType := {|
  discover device :=
    if negb (Array_includes (ScryptedDevice.interfaces device) ScryptedInterface.OnOff)
    then Ok None
    else Ok (Some (OnOffLightDevice (ScryptedDevice.id device)));
  sendEvent device eventDetails eventData :=
    if negb (String.eqb (eventInterface eventDetails) ScryptedInterface.OnOff)
    then ([], Ok EventStatus.NotSupported)
    else ([if truthy eventData then turnOn else turnOff], Ok EventStatus.Handled)
|}.

(** The registry after the imports of the light and switch modules (the
    outlet module is imported as well; its adapter is not modelled, the
    properties below hold for every registry). *)
Definition registered_types : gmap string SupportedType :=
  <[ScryptedDeviceType.Switch := switch_adapter]>
    (<[ScryptedDeviceType.Light := light_adapter]> ∅).

(** The constant [includeToken] of the plugin module. *)
Definition includeToken : Z := 4%Z.

(** ** The controller *)

Section MatterPlugin.

(** [this.id], the controller's own identity in mixin lists. *)
Variable this_id : string.

(** The enrollment-version token the code compares against.  The module
    fixes it to [includeToken]; it is a variable here so that the effect
    of releasing the plugin with another value can be stated. *)
Variable token : Z.

(** The adapter registry [supportedTypes]. *)
Variable supportedTypes : gmap string SupportedType.

(** The platform's answer to a call: it accepts, or rejects with an
    error. *)
Variable platform : PlatformCall → Result unit.

(** [supportedTypes.has(type)] *)
Definition registry_has (type : string) : M bool :=
  let* _ := emit (RegistryHas type) in
  ret (bool_decide (is_Some (supportedTypes !! type))).

(** [supportedTypes.get(type)] *)
Definition registry_get (type : string) : M (option SupportedType) :=
  let* _ := emit (RegistryGet type) in
  ret (supportedTypes !! type).

(** [systemManager.getComponent(name)] *)
Definition getComponent (component : string) : M unit :=
  let* _ := emit (Platform (GetComponent component)) in
  lift (platform (GetComponent component)).

(** [plugins.setMixins(id, mixins)]: when the platform accepts, the
    device's mixin list is replaced. *)
Definition plugins_setMixins (id : string) (mixins : list string) : M unit :=
  let* _ := emit (Platform (SetMixins id mixins)) in
  let* _ := lift (platform (SetMixins id mixins)) in
  modify (λ w, set_systemState
                 (alter (ScryptedDevice.with_mixins mixins) id (systemState w)) w).

(** [systemManager.getDeviceById(id)] *)
Definition getDeviceById (id : string) : M (option ScryptedDevice.t) :=
  gets (λ w, systemState w !! id).

(** [MatterPlugin.tryEnableMixin] *)
Definition tryEnableMixin (device : option ScryptedDevice.t) : M DeviceMixinStatus.t :=
  match device with
  | None => ret DeviceMixinStatus.NotSupported
  | Some device =>
    let mixins := default [] (ScryptedDevice.mixins device) in
    if Array_includes mixins this_id then ret DeviceMixinStatus.AlreadySetup else
    let* defaultIncluded := gets (λ w, default ∅ (defaultIncluded w)) in
    if bool_decide (defaultIncluded !! ScryptedDevice.id device = Some token)
    then ret DeviceMixinStatus.AlreadySetup else
    let* has := registry_has (ScryptedDevice.type device) in
    if negb has then ret DeviceMixinStatus.NotSupported else
    let mixins := mixins ++ [this_id] in
    let* _ := getComponent "plugins" in
    let* _ := plugins_setMixins (ScryptedDevice.id device) mixins in
    let defaultIncluded := <[ScryptedDevice.id device := token]> defaultIncluded in
    let* _ := modify (set_defaultIncluded defaultIncluded) in
    ret DeviceMixinStatus.Setup
  end.

Definition undefined_discover : Error :=
  TypeError "Cannot read properties of undefined (reading 'discover')".
Definition undefined_type : Error :=
  TypeError "Cannot read properties of undefined (reading 'type')".
Definition undefined_id : Error :=
  TypeError "Cannot read properties of undefined (reading 'id')".

(** The statements shared by the startup loop and the live feed:
    [supportedTypes.get(device.type)], [discover], [addBridgedDevice]. *)
Definition discover_and_bridge (device : option ScryptedDevice.t) : M unit :=
  match device with
  | None => throw undefined_type
  | Some device =>
    let* supportedType := registry_get (ScryptedDevice.type device) in
    match supportedType with
    | None => throw undefined_discover
    | Some supportedType =>
      let* _ := emit (CallDiscover (ScryptedDevice.type device) (ScryptedDevice.id device)) in
      let* matterDevice := lift (discover supportedType device) in
      emit (CallAddBridgedDevice matterDevice (ScryptedDevice.name device))
    end
  end.

(** [status === DeviceMixinStatus.Setup] and
    [status === DeviceMixinStatus.AlreadySetup] *)
Definition is_Setup (s : DeviceMixinStatus.t) : bool :=
  match s with DeviceMixinStatus.Setup => true | _ => false end.
Definition is_AlreadySetup (s : DeviceMixinStatus.t) : bool :=
  match s with DeviceMixinStatus.AlreadySetup => true | _ => false end.

(** The body of the startup loop of [MatterPlugin.start], for one
    identifier of the system state. *)
Definition start_device (id : string) : M unit :=
  let* device := getDeviceById id in
  let* status := tryEnableMixin device in
  if is_Setup status || is_AlreadySetup status
  then discover_and_bridge device
  else ret tt.

(** [MatterPlugin.start], from the enumeration on: the loop over
    [ids = Object.keys(systemManager.getSystemState())] and the start of
    the server that follows it.  (The construction of the storage manager
    and of the servers before the loop, and the printing of the pairing
    code, belong to the protocol library.) *)
Definition start (ids : list string) : M unit :=
  let* _ := forEach ids start_device in
  emit ServerStart.

(** [MatterPlugin.deviceListen] *)
Definition deviceListen (eventSource : option ScryptedDevice.t)
    (eventDetails : EventDetails) (eventData : JsValue) : M unit :=
  match eventSource with
  | None => ret tt
  | Some eventSource =>
    let* synced := gets syncedDevices in
    if negb (Array_includes synced (ScryptedDevice.id eventSource)) then ret tt else
    if String.eqb (eventInterface eventDetails) ScryptedInterface.ScryptedDevice
    then ret tt else
    let* supportedType := registry_get (ScryptedDevice.type eventSource) in
    match supportedType with
    | None => ret tt
    | Some supportedType =>
      let* _ := emit (CallSendEvent (ScryptedDevice.type eventSource)
                        (ScryptedDevice.id eventSource) (eventInterface eventDetails)) in
      let '(commands, result) := sendEvent supportedType eventSource eventDetails eventData in
      let* _ := forEach commands (λ c, emit (Command (ScryptedDevice.id eventSource) c)) in
      let* status := lift result in
      let report := JsNumber (EventStatus.value status) in
      let report :=
        if negb (truthy report)
           && String.eqb (eventInterface eventDetails) ScryptedInterface.Online
        then JsObject else report in
      let report :=
        if negb (truthy report)
           && String.eqb (eventInterface eventDetails) ScryptedInterface.Battery
        then JsObject else report in
      if negb (truthy report) then
        emit (ConsoleWarn (eventInterface eventDetails +:+ "." +:+ property eventDetails
                           +:+ " not supported for device "
                           +:+ ScryptedDevice.type eventSource))
      else
        let* dbg := gets DEBUG in
        if dbg then
          emit (ConsoleDebug (eventInterface eventDetails) (property eventDetails)
                  (ScryptedDevice.type eventSource))
        else ret tt
    end
  end.

(** The callback [MatterPlugin.start] passes to [systemManager.listen]. *)
Definition listen_callback (eventSource : option ScryptedDevice.t)
    (eventDetails : EventDetails) (eventData : JsValue) : M unit :=
  let* status := tryEnableMixin eventSource in
  let* _ := if is_Setup status then discover_and_bridge eventSource else ret tt in
  if is_Setup status || is_AlreadySetup status then
    match eventSource with
    | None => throw undefined_id
    | Some source =>
      let* known := gets (λ w, bool_decide (is_Some (devices w !! ScryptedDevice.id source))) in
      let* _ :=
        if negb known then
          let* _ := modify (λ w, set_devices
                                   (<[ScryptedDevice.id source := source]> (devices w)) w) in
          emit (CallListen (ScryptedDevice.id source) ScryptedInterface.ObjectDetector)
        else ret tt in
      detached (deviceListen eventSource eventDetails eventData)
    end
  else ret tt.

End MatterPlugin.

(** ** Scenarios used by the concrete runs below *)

Module Scenario.

(** The controller's identity and the platform's two behaviours. *)
Definition plugin : string := "matter".

Definition accepting : PlatformCall → Result unit := λ _, Ok tt.

Definition rejecting (id : string) : PlatformCall → Result unit :=
  λ c, match c with
       | SetMixins id' _ =>
           if String.eqb id id' then Throw (ExternalError "setMixins rejected") else Ok tt
       | GetComponent _ => Ok tt
       end.

(** A switch and a light that were never enrolled, a switch that carries
    the controller in its mixin list, and a device of a category without
    adapter. *)
Definition lamp : ScryptedDevice.t :=
  ScryptedDevice.mk "1" "Lamp" ScryptedDeviceType.Switch [ScryptedInterface.OnOff] None.

Definition bulb : ScryptedDevice.t :=
  ScryptedDevice.mk "2" "Bulb" ScryptedDeviceType.Light [ScryptedInterface.OnOff] None.

Definition plug : ScryptedDevice.t :=
  ScryptedDevice.mk "3" "Plug" ScryptedDeviceType.Switch [ScryptedInterface.OnOff]
    (Some [plugin]).

Definition camera : ScryptedDevice.t :=
  ScryptedDevice.mk "4" "Door" "Camera" ["VideoCamera"] None.

Definition world (record : option (gmap string Z)) (synced : list string) : World :=
  {| systemState := <["1" := lamp]> (<["2" := bulb]> (<["3" := plug]> (<["4" := camera]> ∅)));
     defaultIncluded := record;
     syncedDevices := synced;
     devices := ∅;
     DEBUG := false;
     trace := [] |}.

(** First run of the plugin: nothing recorded, nothing synced. *)
Definition fresh : World := world None [].

(** The plug was enrolled by a release whose token was 3. *)
Definition enrolled_v3 : World := world (Some {["3" := 3%Z]}) [].

(** The lamp was enrolled by a release whose token was 3, and its mixin
    has been removed since. *)
Definition detached_v3 : World := world (Some {["1" := 3%Z]}) [].

(** Live sync is enabled for the lamp. *)
Definition synced_lamp : World := world None ["1"].

Definition onOff_event : EventDetails :=
  {| eventInterface := ScryptedInterface.OnOff; property := "on" |}.

Definition brightness_event : EventDetails :=
  {| eventInterface := "Brightness"; property := "brightness" |}.

End Scenario.

(** ** Notions the properties are stated with *)

(** A joined context the store rejects, by the shape of the string: it is
    empty, has an empty inner segment, or starts or ends with the
    separator. *)
Definition malformed_context (contextKey : string) : Prop :=
  contextKey = ""
  ∨ (∃ a b, contextKey = a +:+ ".." +:+ b)
  ∨ (∃ r, contextKey = "." +:+ r)
  ∨ (∃ r, contextKey = r +:+ ".").

(** The attachment list as the machine reads it: [device.mixins || []]. *)
Definition mixins_of (device : ScryptedDevice.t) : list string :=
  default [] (ScryptedDevice.mixins device).

(** The enrollment record as the machine reads it:
    [storageSettings.values.defaultIncluded || {}]. *)
Definition record_of (w : World) : gmap string Z :=
  default ∅ (defaultIncluded w).

(** The transition function of the Enrollment State Machine, following the
    words of its specification: the five conditions, in their order. *)
Module Spec.
Inductive EnrollmentState : Type := NotSupported | NeedsSetup | AlreadySetup.

Definition transition (controller : string) (version : Z)
    (registry : gmap string SupportedType)
    (device : option ScryptedDevice.t) (w : World) : EnrollmentState :=
  match device with
  | None => NotSupported
  | Some d =>
    if bool_decide (controller ∈ mixins_of d) then AlreadySetup
    else if bool_decide (record_of w !! ScryptedDevice.id d = Some version) then AlreadySetup
    else if bool_decide (registry !! ScryptedDevice.type d = None) then NotSupported
    else NeedsSetup
  end.
End Spec.

(** The platform calls of one enrollment, and the platform's answer to a
    sequence of calls: the first rejection, if any. *)
Definition enrollment_calls (controller : string) (device : option ScryptedDevice.t)
    : list PlatformCall :=
  match device with
  | None => []
  | Some d =>
    [GetComponent "plugins";
     SetMixins (ScryptedDevice.id d) (mixins_of d ++ [controller])]
  end.

Fixpoint answer (platform : PlatformCall → Result unit) (calls : list PlatformCall)
    : Result unit :=
  match calls with
  | [] => Ok tt
  | c :: calls' =>
    match platform c with
    | Ok _ => answer platform calls'
    | Throw e => Throw e
    end
  end.

(** The world a successful enrollment of [d] leaves. *)
Definition enrolled (controller : string) (version : Z) (d : ScryptedDevice.t)
    (w : World) : World :=
  let mixins := mixins_of d ++ [controller] in
  let w1 := log (RegistryHas (ScryptedDevice.type d)) w in
  let w2 := log (Platform (GetComponent "plugins")) w1 in
  let w3 := log (Platform (SetMixins (ScryptedDevice.id d) mixins)) w2 in
  let w4 := set_systemState
              (alter (ScryptedDevice.with_mixins mixins) (ScryptedDevice.id d)
                 (systemState w3)) w3 in
  set_defaultIncluded (<[ScryptedDevice.id d := version]> (record_of w)) w4.

(** The same device at a later evaluation, with no mutation from outside:
    its identifier and category are unchanged and no mixin was removed
    (the controller's own [setMixins] only appends). *)
Definition same_device (d d' : ScryptedDevice.t) : Prop :=
  ScryptedDevice.id d' = ScryptedDevice.id d
  ∧ ScryptedDevice.type d' = ScryptedDevice.type d
  ∧ ∀ m, m ∈ mixins_of d → m ∈ mixins_of d'.

Definition same_reference (device device' : option ScryptedDevice.t) : Prop :=
  match device, device' with
  | None, None => True
  | Some d, Some d' => same_device d d'
  | _, _ => False
  end.

(** Counting calls in a trace. *)
Definition is_CallDiscover (e : Effect) : bool :=
  match e with CallDiscover _ _ => true | _ => false end.

Definition is_CallAddBridgedDevice (e : Effect) : bool :=
  match e with CallAddBridgedDevice _ _ => true | _ => false end.

Definition is_ConsoleWarn (e : Effect) : bool :=
  match e with ConsoleWarn _ => true | _ => false end.

Definition discover_calls (t : list Effect) : nat :=
  length (List.filter is_CallDiscover t).

Definition addBridgedDevice_calls (t : list Effect) : nat :=
  length (List.filter is_CallAddBridgedDevice t).

Definition warnings (t : list Effect) : list Effect :=
  List.filter is_ConsoleWarn t.

(** ** The rest of the plugin *)

(** *** The store interface of the plugin: [get], [set], [delete]

    The scalar storage [storageSettings.device.storage] holds strings by
    key; [getItem] answers [null] for a missing key.  The codec [toJson] /
    [fromJson] belongs to the protocol library and is a parameter. *)
Module Storage.

Definition empty_error_message : string :=
  "Context and key must not be empty strings!".

Section Store.

Variable T : Type.
Variable toJson : T → string.
Variable fromJson : string → T.

(** [!contexts.length || !key.length] *)
Definition empty_access (contexts : list string) (key : string) : bool :=
  (length contexts =? 0)%nat || (String.length key =? 0)%nat.

(** [MatterPlugin.get] *)
Definition get (contexts : list string) (key : string)
    (storage : gmap string string) : Result (option T) * gmap string string :=
  if empty_access contexts key
  then (Throw (StorageError empty_error_message), storage)
  else
    match buildStorageKey contexts key with
    | Throw e => (Throw e, storage)
    | Ok storageKey =>
      match storage !! storageKey with
      | None => (Ok None, storage)
      | Some value => (Ok (Some (fromJson value)), storage)
      end
    end.

(** [MatterPlugin.set] *)
Definition set (contexts : list string) (key : string) (value : T)
    (storage : gmap string string) : Result unit * gmap string string :=
  if empty_access contexts key
  then (Throw (StorageError empty_error_message), storage)
  else
    match buildStorageKey contexts key with
    | Throw e => (Throw e, storage)
    | Ok storageKey => (Ok tt, <[storageKey := toJson value]> storage)
    end.

(** [MatterPlugin.delete] *)
Definition delete (contexts : list string) (key : string)
    (storage : gmap string string) : Result unit * gmap string string :=
  if empty_access contexts key
  then (Throw (StorageError empty_error_message), storage)
  else
    match buildStorageKey contexts key with
    | Throw e => (Throw e, storage)
    | Ok storageKey => (Ok tt, base.delete storageKey storage)
    end.

End Store.

End Storage.

(** A segment without the separator. *)
Definition dot_free (s : string) : Prop := includes "." s = false.

(** *** The mixin provider: [canMixin], [releaseMixin] *)

Section MixinProvider.

Variable this_id : string.
Variable supportedTypes : gmap string SupportedType.

(** [MatterPlugin.canMixin]: the empty interface list for a category with
    an adapter, [undefined] otherwise. *)
Definition canMixin (type : string) (interfaces : list string) : M (option (list string)) :=
  let* available := registry_has supportedTypes type in
  if available then ret (Some []) else ret None.

Definition undefined_mixins : Error :=
  TypeError "Cannot read properties of undefined (reading 'mixins')".

(** [MatterPlugin.releaseMixin].  The value is what the call writes to the
    plugin's log with [this.log.i]; nothing is removed from the bridge. *)
Definition releaseMixin (id : string) : M (list string) :=
  let* device := getDeviceById id in
  match device with
  | None => throw undefined_mixins
  | Some device =>
    let mixins := default [] (ScryptedDevice.mixins device) in
    if Array_includes mixins this_id then ret []
    else ret ["Device removed from Matter Bridge: " +:+ ScryptedDevice.name device +:+ "."]
  end.

End MixinProvider.

(** *** The first version of the adapter contract

    In the first version of the types module [sendEvent] returns nothing;
    the switch and light adapters of that version translate no event.  The
    dispatcher is the same code; its [report] is then [undefined]. *)
Module Legacy.

Record SupportedType : Type := {
  discover : ScryptedDevice.t → Result (option Device);
  sendEvent : ScryptedDevice.t → EventDetails → JsValue → Result unit
}.

Definition switch_adapter : SupportedType := {|
  discover device :=
    if negb (Array_includes (ScryptedDevice.interfaces device) ScryptedInterface.OnOff)
    then Ok None
    else Ok (Some (OnOffPluginUnitDevice (ScryptedDevice.id device)));
  sendEvent device eventDetails eventData := Ok tt
|}.

Definition light_adapter : SupportedType := {|
  discover device :=
    if negb (Array_includes (ScryptedDevice.interfaces device) ScryptedInterface.OnOff)
    then Ok None
    else Ok (Some (OnOffLightDevice (ScryptedDevice.id device)));
  sendEvent device eventDetails eventData := Ok tt
|}.

(** [MatterPlugin.deviceListen] over a registry of such adapters. *)
Definition deviceListen (supportedTypes : gmap string SupportedType)
    (eventSource : option ScryptedDevice.t)
    (eventDetails : EventDetails) (eventData : JsValue) : M unit :=
  match eventSource with
  | None => ret tt
  | Some eventSource =>
    let* synced := gets syncedDevices in
    if negb (Array_includes synced (ScryptedDevice.id eventSource)) then ret tt else
    if String.eqb (eventInterface eventDetails) ScryptedInterface.ScryptedDevice
    then ret tt else
    let* _ := emit (RegistryGet (ScryptedDevice.type eventSource)) in
    match supportedTypes !! ScryptedDevice.type eventSource with
    | None => ret tt
    | Some supportedType =>
      let* _ := emit (CallSendEvent (ScryptedDevice.type eventSource)
                        (ScryptedDevice.id eventSource) (eventInterface eventDetails)) in
      let* _ := lift (sendEvent supportedType eventSource eventDetails eventData) in
      let report := JsUndefined in
      let report :=
        if negb (truthy report)
           && String.eqb (eventInterface eventDetails) ScryptedInterface.Online
        then JsObject else report in
      let report :=
        if negb (truthy report)
           && String.eqb (eventInterface eventDetails) ScryptedInterface.Battery
        then JsObject else report in
      if negb (truthy report) then
        emit (ConsoleWarn (eventInterface eventDetails +:+ "." +:+ property eventDetails
                           +:+ " not supported for device "
                           +:+ ScryptedDevice.type eventSource))
      else
        let* dbg := gets DEBUG in
        if dbg then
          emit (ConsoleDebug (eventInterface eventDetails) (property eventDetails)
                  (ScryptedDevice.type eventSource))
        else ret tt
    end
  end.

End Legacy.

(** *** Notions for the further properties *)

(** The calls a dispatch can make. *)
Definition is_dispatch_effect (e : Effect) : bool :=
  match e with
  | RegistryGet _ | CallSendEvent _ _ _ | Command _ _
  | ConsoleWarn _ | ConsoleDebug _ _ _ => true
  | _ => false
  end.

Definition is_Platform (e : Effect) : bool :=
  match e with Platform _ => true | _ => false end.

Definition is_CallListen (e : Effect) : bool :=
  match e with CallListen _ _ => true | _ => false end.

Definition is_Command (e : Effect) : bool :=
  match e with Command _ _ => true | _ => false end.

Definition is_ConsoleDebug (e : Effect) : bool :=
  match e with ConsoleDebug _ _ _ => true | _ => false end.

Definition is_CallSendEvent (e : Effect) : bool :=
  match e with CallSendEvent _ _ _ => true | _ => false end.

(** The text of the dispatcher's warning. *)
Definition not_supported_message (details : EventDetails) (d : ScryptedDevice.t) : string :=
  eventInterface details +:+ "." +:+ property details
  +:+ " not supported for device " +:+ ScryptedDevice.type d.

(** The world after the commands of an adapter were issued to a device. *)
Definition issued (id : string) (commands : list DeviceCommand) (w : World) : World :=
  fold_left (λ w c, log (Command id c) w) commands w.

(** The dispatcher's test [!report] on the status of [sendEvent], after the
    two assignments for the infrastructure interfaces. *)
Definition warned (status : EventStatus.t) (details : EventDetails) : Prop :=
  status = EventStatus.Handled
  ∧ eventInterface details ≠ ScryptedInterface.Online
  ∧ eventInterface details ≠ ScryptedInterface.Battery.

(** Two worlds that differ by their traces only. *)
Definition same_state (w w' : World) : Prop :=
  systemState w' = systemState w
  ∧ defaultIncluded w' = defaultIncluded w
  ∧ syncedDevices w' = syncedDevices w
  ∧ devices w' = devices w
  ∧ DEBUG w' = DEBUG w.




(** *** Further scenarios *)

Module Cases.

(** A store of strings, kept as they are. *)
Definition text_toJson : string → string := λ v, v.
Definition text_fromJson : string → string := λ v, v.

(** The lamp's record holds the current token and its mixin was removed. *)
Definition released_lamp : World := Scenario.world (Some {["1" := includeToken]}) [].

(** A switch that exposes no on/off interface. *)
Definition sensor : ScryptedDevice.t :=
  ScryptedDevice.mk "5" "Sensor" ScryptedDeviceType.Switch ["Thermometer"] None.

(** A camera that carries the controller in its mixin list. *)
Definition attached_camera : ScryptedDevice.t :=
  ScryptedDevice.mk "6" "Yard" "Camera" ["VideoCamera"] (Some [Scenario.plugin]).

Definition world (synced : list string) (debug : bool) : World :=
  {| systemState :=
       <["1" := Scenario.lamp]>
         (<["3" := Scenario.plug]>
            (<["4" := Scenario.camera]>
               (<["5" := sensor]> (<["6" := attached_camera]> ∅))));
     defaultIncluded := None;
     syncedDevices := synced;
     devices := ∅;
     DEBUG := debug;
     trace := [] |}.

(** Everything synced, debug logging on. *)
Definition all_synced : World := world ["1"; "3"; "4"; "5"; "6"] true.

(** An adapter whose [sendEvent] fails. *)
Definition failing_adapter : SupportedType := {|
  discover device := Ok None;
  sendEvent device eventDetails eventData := ([], Throw (ExternalError "sendEvent failed"))
|}.

Definition failing_types : gmap string SupportedType :=
  {[ScryptedDeviceType.Switch := failing_adapter]}.

(** The registry of the first version of the types module. *)
Definition legacy_types : gmap string Legacy.SupportedType :=
  <[ScryptedDeviceType.Switch := Legacy.switch_adapter]>
    (<[ScryptedDeviceType.Light := Legacy.light_adapter]> ∅).

Definition online_event : EventDetails :=
  {| eventInterface := ScryptedInterface.Online; property := "online" |}.

End Cases.

(** * Properties *)

(** ** Strings *)

Module StringPrototypeFacts.

Lemma app_cons (c : Ascii.ascii) (a b : string) :
  String c a +:+ b = String c (a +:+ b).
Proof. reflexivity. Qed.

Lemma app_nil_l (b : string) : "" +:+ b = b.
Proof. reflexivity. Qed.

Lemma app_assoc (a b c : string) : (a +:+ b) +:+ c = a +:+ (b +:+ c).
Proof.
  induction a as [|x a IH]; [done |].
  by rewrite !app_cons, IH.
Qed.

Lemma length_zero (s : string) : (String.length s =? 0)%nat = true ↔ s = "".
Proof. destruct s; simpl; split; intros H; done. Qed.

Lemma startsWith_spec (p s : string) :
  startsWith p s = true ↔ ∃ r, s = p +:+ r.
Proof.
  unfold startsWith. revert s.
  induction p as [|c p IH]; intros s.
  - split; [intros _; by exists s | by destruct s].
  - destruct s as [|d s]; simpl.
    + split; [done | intros [r Hr]; rewrite app_cons in Hr; discriminate].
    + destruct (Ascii.ascii_dec c d) as [->|Hne].
      * rewrite IH. split; intros [r Hr]; exists r.
        -- by rewrite app_cons, Hr.
        -- rewrite app_cons in Hr. congruence.
      * split; [done | intros [r Hr]; rewrite app_cons in Hr; congruence].
Qed.

Lemma includes_nil (p : string) : includes p "" = startsWith p "" || false.
Proof. reflexivity. Qed.

Lemma includes_cons (p : string) (c : Ascii.ascii) (s : string) :
  includes p (String c s) = startsWith p (String c s) || includes p s.
Proof. reflexivity. Qed.

Lemma includes_spec (p s : string) :
  includes p s = true ↔ ∃ a b, s = a +:+ p +:+ b.
Proof.
  induction s as [|c s IH].
  - rewrite includes_nil, orb_false_r, startsWith_spec. split.
    + intros [r Hr]. by exists "", r.
    + intros [a [b Hab]]. destruct a; [by exists b | rewrite app_cons in Hab; discriminate].
  - rewrite includes_cons, orb_true_iff, startsWith_spec, IH. split.
    + intros [[r Hr] | [a [b Hab]]].
      * by exists "", r.
      * exists (String c a), b. by rewrite app_cons, Hab.
    + intros [a [b Hab]]. destruct a as [|d a].
      * left. by exists b.
      * right. exists a, b. rewrite app_cons in Hab. congruence.
Qed.

Lemma endsWith_spec (p s : string) :
  endsWith p s = true ↔ ∃ a, s = a +:+ p.
Proof.
  induction s as [|c s IH]; simpl.
  - rewrite orb_false_r. case_decide as Hp; split; try done.
    + intros _. exists "". by rewrite <- Hp.
    + intros [a Ha]. destruct a; [done | rewrite app_cons in Ha; discriminate].
  - rewrite orb_true_iff, IH. split.
    + intros [Hd | [a Ha]].
      * case_decide as Hp; [| done]. by exists "".
      * exists (String c a). by rewrite app_cons, Ha.
    + intros [a Ha]. destruct a as [|d a].
      * left. by rewrite decide_True.
      * right. exists a. rewrite app_cons in Ha. congruence.
Qed.

End StringPrototypeFacts.

(** ** The namespaced store *)

Section BuildStorageKey.

Import StringPrototypeFacts.

Lemma buildStorageKey_guard (contextKey : string) :
  (String.length contextKey =? 0)%nat
  || includes ".." contextKey || startsWith "." contextKey || endsWith "." contextKey = true
  ↔ malformed_context contextKey.
Proof.
  unfold malformed_context.
  rewrite !orb_true_iff, length_zero, includes_spec, startsWith_spec, endsWith_spec.
  tauto.
Qed.

Lemma buildStorageKey_throw_iff (contexts : list string) (key : string) :
  is_Throw (buildStorageKey contexts key)
  ↔ key = "" ∨ malformed_context (join "." contexts).
Proof.
  rewrite <- buildStorageKey_guard, <- length_zero.
  unfold buildStorageKey; cbv zeta.
  destruct (String.length key =? 0)%nat; simpl; [tauto |].
  destruct (_ || _ || _ || _); simpl; intuition congruence.
Qed.

Lemma buildStorageKey_ok (contexts : list string) (key : string) :
  key ≠ "" → ¬ malformed_context (join "." contexts) →
  buildStorageKey contexts key = Ok (join "." contexts +:+ "." +:+ key).
Proof.
  intros Hk Hc.
  pose proof (buildStorageKey_throw_iff contexts key) as Hiff.
  unfold buildStorageKey in *; cbv zeta in *.
  destruct (_ || _ || _ || _ || _); simpl in Hiff; [| done].
  exfalso. destruct Hiff as [Hiff _]. destruct (Hiff I); contradiction.
Qed.

(** C7 (as the code has it).  [buildStorageKey] throws exactly when the
    key is empty, the context list is empty, or the joined context is
    empty, contains "..", or starts or ends with the separator; the error
    is always the same [StorageError].  [buildStorageKey([], "x")],
    [buildStorageKey(["a"], "")] and [buildStorageKey(["a",""], "x")]
    throw; [buildStorageKey(["a.b"], "x")] and
    [buildStorageKey(["a","b"], "x")] both succeed and return "a.b.x". *)
Theorem buildStorageKey_validation :
  (∀ contexts key,
     is_Throw (buildStorageKey contexts key)
     ↔ key = "" ∨ contexts = [] ∨ malformed_context (join "." contexts))
  ∧ (∀ contexts key,
       is_Throw (buildStorageKey contexts key)
       ↔ buildStorageKey contexts key = Throw (StorageError storage_error_message))
  ∧ is_Throw (buildStorageKey [] "x")
  ∧ is_Throw (buildStorageKey ["a"] "")
  ∧ is_Throw (buildStorageKey ["a"; ""] "x")
  ∧ buildStorageKey ["a.b"] "x" = Ok "a.b.x"
  ∧ buildStorageKey ["a"; "b"] "x" = Ok "a.b.x".
Proof.
  split; [| split].
  - intros contexts key. rewrite buildStorageKey_throw_iff. split.
    + intros [Hk | Hc]; auto.
    + intros [Hk | [-> | Hc]]; auto.
      right. by left.
  - intros contexts key. unfold buildStorageKey; cbv zeta.
    destruct (_ || _ || _ || _ || _); simpl; split; intros H; done.
  - repeat split; done.
Qed.

(** C7, the example the code contradicts: a context segment that contains
    the separator is accepted, the joined context "a.b" has no empty
    segment. *)
Lemma buildStorageKey_dotted_segment_accepted :
  ¬ is_Throw (buildStorageKey ["a.b"] "x")
  ∧ buildStorageKey ["a.b"] "x" = Ok "a.b.x".
Proof. split; [intros H; exact H | reflexivity]. Qed.

(** C10.  Of the leaf key only non-emptiness is checked: with a
    well-formed joined context every non-empty key is accepted and
    appended as it is, so a key that begins with the separator, or that
    contains "..", gives a storage key containing ".."; contexts ["a"]
    with key ".x" give "a..x". *)
Theorem buildStorageKey_leaf_key_unchecked (contexts : list string) (key : string) :
  ¬ malformed_context (join "." contexts) →
  key ≠ "" →
  buildStorageKey contexts key = Ok (join "." contexts +:+ "." +:+ key)
  ∧ (startsWith "." key = true ∨ includes ".." key = true →
     includes ".." (join "." contexts +:+ "." +:+ key) = true).
Proof.
  intros Hc Hk. split; [by apply buildStorageKey_ok |].
  rewrite startsWith_spec, !includes_spec.
  intros [[r ->] | [a [b ->]]].
  - exists (join "." contexts), r. reflexivity.
  - exists (join "." contexts +:+ "." +:+ a), b.
    by rewrite !app_assoc.
Qed.

Lemma buildStorageKey_leaf_key_unchecked_witness :
  buildStorageKey ["a"] ".x" = Ok "a..x" ∧ includes ".." "a..x" = true.
Proof.
  assert (Hc : ¬ malformed_context (join "." ["a"])).
  { rewrite <- buildStorageKey_guard. vm_compute. discriminate. }
  assert (Hk : ".x" ≠ "") by discriminate.
  destruct (buildStorageKey_leaf_key_unchecked ["a"] ".x" Hc Hk) as [H1 H2].
  split; [exact H1 | apply H2; left; reflexivity].
Defined.

End BuildStorageKey.

(** ** The enrollment state machine *)

Section EnrollmentCases.

Variable this_id : string.
Variable token : Z.
Variable supportedTypes : gmap string SupportedType.
Variable platform : PlatformCall → Result unit.

Local Abbreviation run device w :=
  (tryEnableMixin this_id token supportedTypes platform device w).

Lemma tryEnableMixin_absent (w : World) :
  run None w = (Ok DeviceMixinStatus.NotSupported, w).
Proof. reflexivity. Qed.

Lemma tryEnableMixin_attached (d : ScryptedDevice.t) (w : World) :
  this_id ∈ mixins_of d →
  run (Some d) w = (Ok DeviceMixinStatus.AlreadySetup, w).
Proof.
  intros Hin. unfold tryEnableMixin, Array_includes. fold (mixins_of d).
  by rewrite bool_decide_eq_true_2.
Qed.

Lemma tryEnableMixin_recorded (d : ScryptedDevice.t) (w : World) :
  record_of w !! ScryptedDevice.id d = Some token →
  run (Some d) w = (Ok DeviceMixinStatus.AlreadySetup, w).
Proof.
  intros Hrec. unfold tryEnableMixin, Array_includes. fold (mixins_of d).
  destruct (bool_decide (this_id ∈ mixins_of d)); [done |].
  unfold bind, gets. fold (record_of w).
  by rewrite bool_decide_eq_true_2.
Qed.

Lemma tryEnableMixin_no_adapter (d : ScryptedDevice.t) (w : World) :
  this_id ∉ mixins_of d →
  record_of w !! ScryptedDevice.id d ≠ Some token →
  supportedTypes !! ScryptedDevice.type d = None →
  run (Some d) w
  = (Ok DeviceMixinStatus.NotSupported, log (RegistryHas (ScryptedDevice.type d)) w).
Proof.
  intros Hin Hrec Hreg. unfold tryEnableMixin, Array_includes. fold (mixins_of d).
  rewrite bool_decide_eq_false_2 by done.
  unfold bind at 1. unfold gets. fold (record_of w).
  rewrite bool_decide_eq_false_2 by done.
  unfold bind, registry_has, emit, modify, ret, bind. simpl.
  rewrite bool_decide_eq_false_2; [done |].
  rewrite Hreg. by intros [? ?].
Qed.

Lemma tryEnableMixin_needs_setup (d : ScryptedDevice.t) (w : World) :
  this_id ∉ mixins_of d →
  record_of w !! ScryptedDevice.id d ≠ Some token →
  is_Some (supportedTypes !! ScryptedDevice.type d) →
  run (Some d) w
  = match answer platform (enrollment_calls this_id (Some d)) with
    | Ok _ => (Ok DeviceMixinStatus.Setup, enrolled this_id token d w)
    | Throw e =>
        (Throw e,
         match platform (GetComponent "plugins") with
         | Ok _ =>
             log (Platform (SetMixins (ScryptedDevice.id d) (mixins_of d ++ [this_id])))
               (log (Platform (GetComponent "plugins"))
                  (log (RegistryHas (ScryptedDevice.type d)) w))
         | Throw _ =>
             log (Platform (GetComponent "plugins"))
               (log (RegistryHas (ScryptedDevice.type d)) w)
         end)
    end.
Proof.
  intros Hin Hrec Hreg. unfold tryEnableMixin, Array_includes. fold (mixins_of d).
  rewrite bool_decide_eq_false_2 by done.
  unfold bind at 1. unfold gets. fold (record_of w).
  rewrite bool_decide_eq_false_2 by done.
  unfold bind at 1. unfold registry_has, emit, modify, ret, bind at 1. simpl.
  rewrite bool_decide_eq_true_2 by done. simpl.
  unfold bind, getComponent, plugins_setMixins, bind, emit, modify, lift, ret. simpl.
  destruct (platform (GetComponent "plugins")) as [[]|e]; [| done].
  destruct (platform (SetMixins _ _)) as [[]|e]; done.
Qed.

End EnrollmentCases.

Section Enrollment.

Variable this_id : string.
Variable token : Z.
Variable supportedTypes : gmap string SupportedType.
Variable platform : PlatformCall → Result unit.

Local Abbreviation run device w :=
  (tryEnableMixin this_id token supportedTypes platform device w).

Lemma transition_cases (device : option ScryptedDevice.t) (w : World) :
  match Spec.transition this_id token supportedTypes device w with
  | Spec.NotSupported =>
      device = None
      ∨ ∃ d, device = Some d ∧ (this_id ∉ mixins_of d)
             ∧ record_of w !! ScryptedDevice.id d ≠ Some token
             ∧ supportedTypes !! ScryptedDevice.type d = None
  | Spec.AlreadySetup =>
      ∃ d, device = Some d
           ∧ (this_id ∈ mixins_of d ∨ record_of w !! ScryptedDevice.id d = Some token)
  | Spec.NeedsSetup =>
      ∃ d, device = Some d ∧ (this_id ∉ mixins_of d)
           ∧ record_of w !! ScryptedDevice.id d ≠ Some token
           ∧ is_Some (supportedTypes !! ScryptedDevice.type d)
  end.
Proof.
  destruct device as [d|]; simpl; [| by left].
  repeat case_bool_decide; eauto 10.
  exists d. repeat split; try done.
  by apply not_eq_None_Some.
Qed.

(** C3.  The machine evaluates the five conditions in the order of the
    specification: absent reference, controller already in the mixin list,
    current token in the enrollment record, category without adapter, and
    otherwise the setup (whose status is [Setup] once the platform has
    accepted the mutation).  Only that last case touches the enrollment
    record or the platform's state: it appends the controller to the
    device's mixin list and records the current token. *)
Theorem tryEnableMixin_follows_transition
    (device : option ScryptedDevice.t) (w : World) :
  status_of (run device w)
  = (match Spec.transition this_id token supportedTypes device w with
     | Spec.NotSupported => Ok DeviceMixinStatus.NotSupported
     | Spec.AlreadySetup => Ok DeviceMixinStatus.AlreadySetup
     | Spec.NeedsSetup =>
         match answer platform (enrollment_calls this_id device) with
         | Ok _ => Ok DeviceMixinStatus.Setup
         | Throw e => Throw e
         end
     end)
  ∧ (Spec.transition this_id token supportedTypes device w ≠ Spec.NeedsSetup →
     defaultIncluded (world_of (run device w)) = defaultIncluded w
     ∧ systemState (world_of (run device w)) = systemState w)
  ∧ (∀ d, device = Some d →
       Spec.transition this_id token supportedTypes device w = Spec.NeedsSetup →
       answer platform (enrollment_calls this_id device) = Ok tt →
       run device w = (Ok DeviceMixinStatus.Setup, enrolled this_id token d w)).
Proof.
  pose proof (transition_cases device w) as Hc.
  destruct (Spec.transition _ _ _ _ _).
  - destruct Hc as [-> | (d & -> & Hin & Hrec & Hreg)].
    + by rewrite tryEnableMixin_absent.
    + by rewrite tryEnableMixin_no_adapter.
  - destruct Hc as (d & -> & Hin & Hrec & Hreg).
    rewrite tryEnableMixin_needs_setup by done.
    split; [by destruct (answer _ _) |]. split; [done |].
    intros d' [= <-] _ Hans. by rewrite Hans.
  - destruct Hc as (d & -> & [Hin | Hrec]).
    + by rewrite tryEnableMixin_attached.
    + by rewrite tryEnableMixin_recorded.
Qed.

(** C4.  After a run of the machine for a device, a second run for the same
    device (same identifier and category, no mixin removed) never returns
    [Setup]; when the first run enrolled the device or found it enrolled,
    the second run returns [AlreadySetup] and changes nothing, whatever the
    platform would answer then. *)
Theorem tryEnableMixin_idempotent
    (platform' : PlatformCall → Result unit)
    (device device' : option ScryptedDevice.t)
    (w w' : World) (s : DeviceMixinStatus.t) :
  run device w = (Ok s, w') →
  same_reference device device' →
  status_of (tryEnableMixin this_id token supportedTypes platform' device' w')
    ≠ Ok DeviceMixinStatus.Setup
  ∧ (s ≠ DeviceMixinStatus.NotSupported →
     tryEnableMixin this_id token supportedTypes platform' device' w'
     = (Ok DeviceMixinStatus.AlreadySetup, w')).
Proof.
  intros Hrun Hsame.
  destruct device as [d|], device' as [d'|]; try done.
  2: { rewrite tryEnableMixin_absent in Hrun. by simplify_eq. }
  destruct Hsame as (Hid & Hty & Hmix).
  destruct (decide (this_id ∈ mixins_of d)) as [Hin | Hin].
  { rewrite tryEnableMixin_attached in Hrun by done. simplify_eq.
    rewrite tryEnableMixin_attached by auto. done. }
  destruct (decide (record_of w !! ScryptedDevice.id d = Some token)) as [Hrec | Hrec].
  { rewrite tryEnableMixin_recorded in Hrun by done. simplify_eq.
    rewrite tryEnableMixin_recorded by (by rewrite Hid). done. }
  destruct (supportedTypes !! ScryptedDevice.type d) as [a|] eqn:Hreg.
  - rewrite tryEnableMixin_needs_setup in Hrun by (by rewrite ?Hreg).
    destruct (answer _ _) as [[]|e]; [| done]. simplify_eq.
    rewrite tryEnableMixin_recorded; [done |].
    rewrite Hid. unfold enrolled, record_of; simpl. apply lookup_insert_eq.
  - rewrite tryEnableMixin_no_adapter in Hrun by done. simplify_eq.
    split; [| done].
    destruct (decide (this_id ∈ mixins_of d')) as [Hin' | Hin'].
    + by rewrite tryEnableMixin_attached.
    + rewrite tryEnableMixin_no_adapter; [done | done | by rewrite Hid | by rewrite Hty].
Qed.

(** C5 (as the code has it).  Let the enrollment record of a device store a
    token other than the current one, so that the device was
    [AlreadySetup] under the old token.  If the controller is still in the
    device's mixin list the device stays [AlreadySetup] and is not set up
    again.  If it is not, the category has an adapter and the platform
    accepts, the next evaluation sets the device up, records the current
    token, and every evaluation after that returns [AlreadySetup]. *)
Theorem tryEnableMixin_token_bump (old : Z) (d : ScryptedDevice.t) (w : World) :
  record_of w !! ScryptedDevice.id d = Some old →
  old ≠ token →
  tryEnableMixin this_id old supportedTypes platform (Some d) w
  = (Ok DeviceMixinStatus.AlreadySetup, w)
  ∧ (this_id ∈ mixins_of d →
     run (Some d) w = (Ok DeviceMixinStatus.AlreadySetup, w))
  ∧ (this_id ∉ mixins_of d →
     is_Some (supportedTypes !! ScryptedDevice.type d) →
     answer platform (enrollment_calls this_id (Some d)) = Ok tt →
     run (Some d) w = (Ok DeviceMixinStatus.Setup, enrolled this_id token d w)
     ∧ record_of (enrolled this_id token d w) !! ScryptedDevice.id d = Some token
     ∧ ∀ platform' d', same_device d d' →
         tryEnableMixin this_id token supportedTypes platform' (Some d')
           (enrolled this_id token d w)
         = (Ok DeviceMixinStatus.AlreadySetup, enrolled this_id token d w)).
Proof.
  intros Hrec Hne. split; [by apply tryEnableMixin_recorded |].
  split; [by apply tryEnableMixin_attached |].
  intros Hin Hreg Hans.
  assert (Hnew : record_of (enrolled this_id token d w) !! ScryptedDevice.id d = Some token).
  { unfold enrolled, record_of; simpl. apply lookup_insert_eq. }
  split; [| split; [done |]].
  - rewrite tryEnableMixin_needs_setup; [by rewrite Hans | done | | done].
    rewrite Hrec. congruence.
  - intros platform' d' (Hid & _ & _).
    apply tryEnableMixin_recorded. by rewrite Hid.
Qed.

(** C6.  If an enrollment fails, that is the platform rejects [setMixins]
    (or the lookup of the plugins component before it), the enrollment
    record and the platform's state are left as they were, and a later
    evaluation of the device attempts the setup again: its result is
    [Setup] as soon as the platform accepts, the platform's error
    otherwise. *)
Theorem tryEnableMixin_failure_keeps_record
    (device : option ScryptedDevice.t) (w w' : World) (e : Error) :
  run device w = (Throw e, w') →
  answer platform (enrollment_calls this_id device) = Throw e
  ∧ defaultIncluded w' = defaultIncluded w
  ∧ systemState w' = systemState w
  ∧ ∀ platform',
      status_of (tryEnableMixin this_id token supportedTypes platform' device w')
      = match answer platform' (enrollment_calls this_id device) with
        | Ok _ => Ok DeviceMixinStatus.Setup
        | Throw e' => Throw e'
        end.
Proof.
  intros Hrun.
  destruct device as [d|]; [| by rewrite tryEnableMixin_absent in Hrun].
  destruct (decide (this_id ∈ mixins_of d)) as [Hin | Hin].
  { by rewrite tryEnableMixin_attached in Hrun. }
  destruct (decide (record_of w !! ScryptedDevice.id d = Some token)) as [Hrec | Hrec].
  { by rewrite tryEnableMixin_recorded in Hrun. }
  destruct (supportedTypes !! ScryptedDevice.type d) as [a|] eqn:Hreg.
  2: { by rewrite tryEnableMixin_no_adapter in Hrun. }
  rewrite tryEnableMixin_needs_setup in Hrun by (by rewrite ?Hreg).
  destruct (answer platform _) as [[]|e0] eqn:Hans; [done |].
  assert (defaultIncluded w' = defaultIncluded w ∧ systemState w' = systemState w
          ∧ record_of w' = record_of w) as (Hd & Hs & Hr).
  { simplify_eq. by destruct (platform (GetComponent "plugins")). }
  split; [congruence |]. split; [done |]. split; [done |].
  intros platform'.
  rewrite tryEnableMixin_needs_setup; [| done | by rewrite Hr | by rewrite Hreg].
  by destruct (answer platform' _).
Qed.

End Enrollment.

(** Concrete runs of the machine. *)

Lemma tryEnableMixin_idempotent_witness :
  tryEnableMixin Scenario.plugin includeToken registered_types Scenario.accepting
    (Some Scenario.lamp) Scenario.fresh
  = (Ok DeviceMixinStatus.Setup,
     enrolled Scenario.plugin includeToken Scenario.lamp Scenario.fresh)
  ∧ same_reference (Some Scenario.lamp) (Some Scenario.lamp)
  ∧ tryEnableMixin Scenario.plugin includeToken registered_types (Scenario.rejecting "1")
      (Some Scenario.lamp)
      (enrolled Scenario.plugin includeToken Scenario.lamp Scenario.fresh)
    = (Ok DeviceMixinStatus.AlreadySetup,
       enrolled Scenario.plugin includeToken Scenario.lamp Scenario.fresh).
Proof.
  assert (H1 : tryEnableMixin Scenario.plugin includeToken registered_types
                 Scenario.accepting (Some Scenario.lamp) Scenario.fresh
               = (Ok DeviceMixinStatus.Setup,
                  enrolled Scenario.plugin includeToken Scenario.lamp Scenario.fresh))
    by (vm_compute; reflexivity).
  assert (H2 : same_reference (Some Scenario.lamp) (Some Scenario.lamp))
    by (simpl; unfold same_device; auto).
  split; [exact H1 |]. split; [exact H2 |].
  apply (tryEnableMixin_idempotent Scenario.plugin includeToken registered_types
           Scenario.accepting (Scenario.rejecting "1") _ _ _ _ _ H1 H2).
  discriminate.
Defined.

Lemma tryEnableMixin_token_bump_witness :
  tryEnableMixin Scenario.plugin 3 registered_types Scenario.accepting
    (Some Scenario.lamp) Scenario.detached_v3
  = (Ok DeviceMixinStatus.AlreadySetup, Scenario.detached_v3)
  ∧ tryEnableMixin Scenario.plugin includeToken registered_types Scenario.accepting
      (Some Scenario.lamp) Scenario.detached_v3
    = (Ok DeviceMixinStatus.Setup,
       enrolled Scenario.plugin includeToken Scenario.lamp Scenario.detached_v3)
  ∧ tryEnableMixin Scenario.plugin includeToken registered_types Scenario.accepting
      (Some Scenario.lamp)
      (enrolled Scenario.plugin includeToken Scenario.lamp Scenario.detached_v3)
    = (Ok DeviceMixinStatus.AlreadySetup,
       enrolled Scenario.plugin includeToken Scenario.lamp Scenario.detached_v3).
Proof.
  assert (Hrec : record_of Scenario.detached_v3 !! ScryptedDevice.id Scenario.lamp
                 = Some 3%Z) by (vm_compute; reflexivity).
  assert (Hne : 3%Z ≠ includeToken) by (vm_compute; discriminate).
  destruct (tryEnableMixin_token_bump Scenario.plugin includeToken registered_types
              Scenario.accepting 3%Z Scenario.lamp Scenario.detached_v3 Hrec Hne)
    as (Hold & _ & Hnew).
  assert (Hin : Scenario.plugin ∉ mixins_of Scenario.lamp)
    by (vm_compute; apply not_elem_of_nil).
  assert (Hreg : is_Some (registered_types !! ScryptedDevice.type Scenario.lamp))
    by (vm_compute; eauto).
  assert (Hans : answer Scenario.accepting
                   (enrollment_calls Scenario.plugin (Some Scenario.lamp)) = Ok tt)
    by reflexivity.
  destruct (Hnew Hin Hreg Hans) as (Hsetup & _ & Hafter).
  split; [exact Hold |]. split; [exact Hsetup |].
  apply Hafter. unfold same_device. auto.
Defined.

Lemma tryEnableMixin_failure_keeps_record_witness :
  status_of (tryEnableMixin Scenario.plugin includeToken registered_types
               (Scenario.rejecting "1") (Some Scenario.lamp) Scenario.fresh)
  = Throw (ExternalError "setMixins rejected")
  ∧ defaultIncluded
      (world_of (tryEnableMixin Scenario.plugin includeToken registered_types
                   (Scenario.rejecting "1") (Some Scenario.lamp) Scenario.fresh))
    = None
  ∧ status_of
      (tryEnableMixin Scenario.plugin includeToken registered_types Scenario.accepting
         (Some Scenario.lamp)
         (world_of (tryEnableMixin Scenario.plugin includeToken registered_types
                      (Scenario.rejecting "1") (Some Scenario.lamp) Scenario.fresh)))
    = Ok DeviceMixinStatus.Setup.
Proof.
  pose (r := tryEnableMixin Scenario.plugin includeToken registered_types
               (Scenario.rejecting "1") (Some Scenario.lamp) Scenario.fresh).
  assert (Hrun : r = (Throw (ExternalError "setMixins rejected"), world_of r))
    by (vm_compute; reflexivity).
  destruct (tryEnableMixin_failure_keeps_record Scenario.plugin includeToken
              registered_types (Scenario.rejecting "1") (Some Scenario.lamp)
              Scenario.fresh (world_of r) _ Hrun) as (_ & Hrec & _ & Hlater).
  split; [change (status_of r = Throw (ExternalError "setMixins rejected"));
          by rewrite Hrun |].
  split; [exact Hrec |].
  exact (Hlater Scenario.accepting).
Defined.

(** C5, where the code departs from the claim: the plug was enrolled under
    token 3 and still carries the controller in its mixin list; under the
    current token it is [AlreadySetup] at once, it is never set up again. *)
Lemma token_bump_attached_device_not_set_up_again :
  record_of Scenario.enrolled_v3 !! ScryptedDevice.id Scenario.plug = Some 3%Z
  ∧ status_of (tryEnableMixin Scenario.plugin 3 registered_types Scenario.accepting
                 (Some Scenario.plug) Scenario.enrolled_v3)
    = Ok DeviceMixinStatus.AlreadySetup
  ∧ tryEnableMixin Scenario.plugin includeToken registered_types Scenario.accepting
      (Some Scenario.plug) Scenario.enrolled_v3
    = (Ok DeviceMixinStatus.AlreadySetup, Scenario.enrolled_v3)
  ∧ status_of (tryEnableMixin Scenario.plugin includeToken registered_types
                 Scenario.accepting (Some Scenario.plug) Scenario.enrolled_v3)
    ≠ Ok DeviceMixinStatus.Setup.
Proof. repeat split; try (vm_compute; reflexivity). vm_compute. discriminate. Qed.

(** ** Running computations *)

Section Running.

Context {A B : Type}.

Lemma bind_ret (a : A) (k : A → M B) (w : World) : bind (ret a) k w = k a w.
Proof. reflexivity. Qed.

Lemma bind_gets (f : World → A) (k : A → M B) (w : World) :
  bind (gets f) k w = k (f w) w.
Proof. reflexivity. Qed.

Lemma bind_lift_Ok (a : A) (k : A → M B) (w : World) : bind (lift (Ok a)) k w = k a w.
Proof. reflexivity. Qed.

Lemma bind_lift_Throw (e : Error) (k : A → M B) (w : World) :
  bind (lift (Throw e)) k w = (Throw e, w).
Proof. reflexivity. Qed.

Lemma bind_Ok (m : M A) (k : A → M B) (w w' : World) (a : A) :
  m w = (Ok a, w') → bind m k w = k a w'.
Proof. intros H. unfold bind. by rewrite H. Qed.

Lemma bind_Throw (m : M A) (k : A → M B) (w w' : World) (e : Error) :
  m w = (Throw e, w') → bind m k w = (Throw e, w').
Proof. intros H. unfold bind. by rewrite H. Qed.

End Running.

Lemma bind_emit {B} (e : Effect) (k : unit → M B) (w : World) :
  bind (emit e) k w = k tt (log e w).
Proof. reflexivity. Qed.

Lemma bind_modify {B} (f : World → World) (k : unit → M B) (w : World) :
  bind (modify f) k w = k tt (f w).
Proof. reflexivity. Qed.

Lemma bind_registry_get {B} (registry : gmap string SupportedType) (type : string)
    (k : option SupportedType → M B) (w : World) :
  bind (registry_get registry type) k w = k (registry !! type) (log (RegistryGet type) w).
Proof. reflexivity. Qed.

Lemma forEach_commands (id : string) (commands : list DeviceCommand) (w : World) :
  forEach commands (λ c, emit (Command id c)) w
  = (Ok tt, fold_left (λ w c, log (Command id c) w) commands w).
Proof.
  revert w. induction commands as [|c commands IH]; intros w; [done |].
  cbn [forEach fold_left]. rewrite bind_emit. apply IH.
Qed.

Lemma commands_world (id : string) (commands : list DeviceCommand) (w : World) :
  let w' := fold_left (λ w c, log (Command id c) w) commands w in
  DEBUG w' = DEBUG w
  ∧ warnings (trace w') = warnings (trace w)
  ∧ discover_calls (trace w') = discover_calls (trace w)
  ∧ addBridgedDevice_calls (trace w') = addBridgedDevice_calls (trace w).
Proof.
  revert w. induction commands as [|c commands IH]; intros w; [done |].
  simpl. destruct (IH (log (Command id c) w)) as (H1 & H2 & H3 & H4).
  by rewrite H1, H2, H3, H4.
Qed.

(** ** The event dispatcher *)

Section Dispatch.

Variable supportedTypes : gmap string SupportedType.

Local Abbreviation dispatch source details data w :=
  (deviceListen supportedTypes source details data w).


(** The last statements of the dispatcher, from the status on. *)
Lemma report_warnings (iface : string) (status : EventStatus.t) :
  let report := JsNumber (EventStatus.value status) in
  let report :=
    if negb (truthy report) && String.eqb iface ScryptedInterface.Online
    then JsObject else report in
  let report :=
    if negb (truthy report) && String.eqb iface ScryptedInterface.Battery
    then JsObject else report in
  negb (truthy report)
  = bool_decide (status = EventStatus.Handled
                 ∧ iface ≠ ScryptedInterface.Online
                 ∧ iface ≠ ScryptedInterface.Battery).
Proof.
  cbv zeta.
  destruct (String.eqb_spec iface ScryptedInterface.Online) as [Ho|Ho],
           (String.eqb_spec iface ScryptedInterface.Battery) as [Hb|Hb],
           status; simpl;
    first [ done
          | by rewrite bool_decide_eq_true_2
          | rewrite bool_decide_eq_false_2; [done | intros (? & ? & ?); done] ].
Qed.

(** X22.  What the dispatcher does with the status of [sendEvent]: its test
    [!report] holds for the status whose number is 0, that is [Handled].
    For an event that an adapter answered, the warning is logged exactly
    when the status is [Handled] and the interface is neither [Online] nor
    [Battery]. *)
Lemma deviceListen_warnings
    (d : ScryptedDevice.t) (details : EventDetails) (data : JsValue) (w : World)
    (a : SupportedType) (commands : list DeviceCommand) (status : EventStatus.t) :
  ScryptedDevice.id d ∈ syncedDevices w →
  eventInterface details ≠ ScryptedInterface.ScryptedDevice →
  supportedTypes !! ScryptedDevice.type d = Some a →
  sendEvent a d details data = (commands, Ok status) →
  warnings (trace (world_of (dispatch (Some d) details data w)))
  = (if decide (status = EventStatus.Handled
                ∧ eventInterface details ≠ ScryptedInterface.Online
                ∧ eventInterface details ≠ ScryptedInterface.Battery)
     then [ConsoleWarn (eventInterface details +:+ "." +:+ property details
                        +:+ " not supported for device " +:+ ScryptedDevice.type d)]
     else [])
    ++ warnings (trace w).
Proof.
  intros Hin Hif Hreg Hsend.
  unfold deviceListen, Array_includes. rewrite bind_gets.
  rewrite bool_decide_eq_true_2 by done. cbn [negb].
  apply String.eqb_neq in Hif. rewrite Hif.
  rewrite bind_registry_get, Hreg, bind_emit, Hsend.
  erewrite bind_Ok by apply forEach_commands.
  rewrite bind_lift_Ok. cbv zeta.
  match goal with |- context [fold_left ?f commands ?w0] =>
    destruct (commands_world (ScryptedDevice.id d) commands w0) as (HD & HW & _ & _);
    set (w1 := fold_left f commands w0) in *
  end.
  cbv zeta in HW. cbn [trace log warnings List.filter is_ConsoleWarn] in HW.
  pose proof (report_warnings (eventInterface details) status) as Hrep.
  cbv zeta in Hrep. rewrite Hrep. clear Hrep.
  case_decide as Hc.
  - rewrite bool_decide_eq_true_2 by done.
    unfold emit, modify, world_of. cbn [snd trace log warnings List.filter is_ConsoleWarn].
    fold (warnings (trace w1)). by rewrite HW.
  - rewrite bool_decide_eq_false_2 by done.
    rewrite bind_gets.
    destruct (DEBUG w1); unfold emit, modify, ret, world_of;
      cbn [snd trace log warnings List.filter is_ConsoleWarn];
      fold (warnings (trace w1)); by rewrite HW.
Qed.

(** The dispatcher never calls [discover] or [addBridgedDevice]. *)
Lemma deviceListen_quiet
    (source : option ScryptedDevice.t) (details : EventDetails) (data : JsValue)
    (w : World) :
  discover_calls (trace (world_of (dispatch source details data w)))
  = discover_calls (trace w)
  ∧ addBridgedDevice_calls (trace (world_of (dispatch source details data w)))
    = addBridgedDevice_calls (trace w).
Proof.
  destruct source as [d|]; [| done].
  unfold deviceListen. rewrite bind_gets.
  destruct (negb _); [done |].
  destruct (String.eqb _ _); [done |].
  rewrite bind_registry_get.
  destruct (supportedTypes !! _) as [a|]; [| done].
  rewrite bind_emit.
  destruct (sendEvent a d details data) as [commands result].
  erewrite bind_Ok by apply forEach_commands.
  match goal with |- context [fold_left ?f commands ?w0] =>
    destruct (commands_world (ScryptedDevice.id d) commands w0) as (_ & _ & HD & HB);
    set (w1 := fold_left f commands w0) in *
  end.
  cbv zeta in HD, HB.
  change (discover_calls (trace w1) = discover_calls (trace w)) in HD.
  change (addBridgedDevice_calls (trace w1) = addBridgedDevice_calls (trace w)) in HB.
  destruct result as [status|e]; [| by rewrite bind_lift_Throw].
  rewrite bind_lift_Ok. cbv zeta.
  destruct (negb (truthy _)); [done |].
  rewrite bind_gets. by destruct (DEBUG w1).
Qed.

End Dispatch.


(** C1, on the code.  The lamp is a synced switch.  For an on/off event
    the switch adapter returns [Handled] and the dispatcher logs the
    warning "OnOff.on not supported for device Switch"; for a brightness
    event the adapter returns [NotSupported] and the dispatcher logs no
    warning.  The dispatcher tests the status with [!report], and
    [Handled] is the member numbered 0. *)
Theorem deviceListen_warns_on_handled :
  sendEvent switch_adapter Scenario.lamp Scenario.onOff_event (JsBoolean true)
  = ([turnOn], Ok EventStatus.Handled)
  ∧ warnings (trace (world_of (deviceListen registered_types (Some Scenario.lamp)
                                 Scenario.onOff_event (JsBoolean true)
                                 Scenario.synced_lamp)))
    = [ConsoleWarn "OnOff.on not supported for device Switch"]
  ∧ sendEvent switch_adapter Scenario.lamp Scenario.brightness_event (JsNumber 5)
    = ([], Ok EventStatus.NotSupported)
  ∧ warnings (trace (world_of (deviceListen registered_types (Some Scenario.lamp)
                                 Scenario.brightness_event (JsNumber 5)
                                 Scenario.synced_lamp)))
    = [].
Proof. repeat split; vm_compute; reflexivity. Qed.

(** ** The startup enumeration and the live feed *)

Section Startup.

Variable this_id : string.
Variable token : Z.
Variable supportedTypes : gmap string SupportedType.
Variable platform : PlatformCall → Result unit.

Local Abbreviation run device w :=
  (tryEnableMixin this_id token supportedTypes platform device w).
Local Abbreviation bridge device w :=
  (discover_and_bridge supportedTypes device w).
Local Abbreviation feed source details data w :=
  (listen_callback this_id token supportedTypes platform source details data w).
Local Abbreviation visit id w :=
  (start_device this_id token supportedTypes platform id w).

(** The machine itself never calls [discover] or [addBridgedDevice]. *)
Lemma tryEnableMixin_quiet (device : option ScryptedDevice.t) (w : World) :
  discover_calls (trace (world_of (run device w))) = discover_calls (trace w)
  ∧ addBridgedDevice_calls (trace (world_of (run device w)))
    = addBridgedDevice_calls (trace w).
Proof.
  pose proof (transition_cases this_id token supportedTypes device w) as Hc.
  destruct (Spec.transition _ _ _ _ _).
  - destruct Hc as [-> | (d & -> & Hin & Hrec & Hreg)]; [done |].
    by rewrite tryEnableMixin_no_adapter.
  - destruct Hc as (d & -> & Hin & Hrec & Hreg).
    rewrite tryEnableMixin_needs_setup by done.
    destruct (answer _ _); [done |].
    by destruct (platform (GetComponent "plugins")).
  - destruct Hc as (d & -> & [Hin | Hrec]).
    + by rewrite tryEnableMixin_attached.
    + by rewrite tryEnableMixin_recorded.
Qed.

Lemma discover_and_bridge_registered
    (d : ScryptedDevice.t) (a : SupportedType) (w : World) :
  supportedTypes !! ScryptedDevice.type d = Some a →
  bridge (Some d) w
  = match discover a d with
    | Ok node =>
        (Ok tt,
         log (CallAddBridgedDevice node (ScryptedDevice.name d))
           (log (CallDiscover (ScryptedDevice.type d) (ScryptedDevice.id d))
              (log (RegistryGet (ScryptedDevice.type d)) w)))
    | Throw e =>
        (Throw e,
         log (CallDiscover (ScryptedDevice.type d) (ScryptedDevice.id d))
           (log (RegistryGet (ScryptedDevice.type d)) w))
    end.
Proof.
  intros Hreg. unfold discover_and_bridge.
  rewrite bind_registry_get, Hreg, bind_emit.
  by destruct (discover a d).
Qed.

Lemma discover_and_bridge_unregistered (d : ScryptedDevice.t) (w : World) :
  supportedTypes !! ScryptedDevice.type d = None →
  bridge (Some d) w
  = (Throw undefined_discover, log (RegistryGet (ScryptedDevice.type d)) w).
Proof.
  intros Hreg. unfold discover_and_bridge.
  by rewrite bind_registry_get, Hreg.
Qed.

(** On the live feed, an event whose source the machine does not classify
    [Setup] leads to no [discover] and no [addBridgedDevice] call. *)
Lemma listen_callback_quiet
    (source : option ScryptedDevice.t) (details : EventDetails) (data : JsValue)
    (w : World) :
  status_of (run source w) ≠ Ok DeviceMixinStatus.Setup →
  discover_calls (trace (world_of (feed source details data w)))
  = discover_calls (trace w)
  ∧ addBridgedDevice_calls (trace (world_of (feed source details data w)))
    = addBridgedDevice_calls (trace w).
Proof.
  intros Hs. pose proof (tryEnableMixin_quiet source w) as Hq.
  unfold listen_callback.
  destruct (run source w) as [[s|e] w1] eqn:Hrun.
  2: { by erewrite bind_Throw by exact Hrun. }
  erewrite bind_Ok by exact Hrun.
  destruct s; [| done |]; cbn [is_Setup is_AlreadySetup orb];
    rewrite bind_ret; [done |].
  destruct source as [d|]; [| done].
  rewrite bind_gets.
  destruct (negb _).
  - erewrite bind_Ok by (rewrite bind_modify; reflexivity).
    unfold detached, world_of. cbn [snd].
    match goal with |- context [deviceListen _ _ _ _ ?w0] =>
      destruct (deviceListen_quiet supportedTypes (Some d) details data w0) as (HD & HB)
    end.
    unfold world_of in HD, HB. rewrite HD, HB. done.
  - rewrite bind_ret. unfold detached, world_of. cbn [snd].
    destruct (deviceListen_quiet supportedTypes (Some d) details data w1) as (HD & HB).
    unfold world_of in HD, HB. rewrite HD, HB. done.
Qed.

(** C2 (as the code has it).  On the live feed [discover] and
    [addBridgedDevice] are called only when the machine returns [Setup]:
    an event from a device classified [AlreadySetup] (or [NotSupported], or
    whose enrollment fails) adds no such call.  In the startup enumeration
    a device classified [NotSupported] adds none, and a device of a
    registered category classified [Setup] or [AlreadySetup] is
    discovered, exactly once, and bridged when [discover] returns. *)
Theorem discover_calls_by_status :
  (∀ source details data w,
     status_of (run source w) ≠ Ok DeviceMixinStatus.Setup →
     discover_calls (trace (world_of (feed source details data w)))
     = discover_calls (trace w)
     ∧ addBridgedDevice_calls (trace (world_of (feed source details data w)))
       = addBridgedDevice_calls (trace w))
  ∧ (∀ id w,
       status_of (run (systemState w !! id) w) = Ok DeviceMixinStatus.NotSupported →
       discover_calls (trace (world_of (visit id w))) = discover_calls (trace w)
       ∧ addBridgedDevice_calls (trace (world_of (visit id w)))
         = addBridgedDevice_calls (trace w))
  ∧ (∀ id d a w s,
       systemState w !! id = Some d →
       supportedTypes !! ScryptedDevice.type d = Some a →
       status_of (run (Some d) w) = Ok s →
       s = DeviceMixinStatus.Setup ∨ s = DeviceMixinStatus.AlreadySetup →
       discover_calls (trace (world_of (visit id w))) = S (discover_calls (trace w))
       ∧ addBridgedDevice_calls (trace (world_of (visit id w)))
         = match discover a d with
           | Ok _ => S (addBridgedDevice_calls (trace w))
           | Throw _ => addBridgedDevice_calls (trace w)
           end).
Proof.
  split; [exact listen_callback_quiet |]. split.
  - intros id w Hs. pose proof (tryEnableMixin_quiet (systemState w !! id) w) as Hq.
    unfold start_device, getDeviceById. rewrite bind_gets.
    destruct (run (systemState w !! id) w) as [[s|e] w1] eqn:Hrun; [| done].
    erewrite bind_Ok by exact Hrun.
    unfold status_of in Hs. cbn [fst] in Hs. by simplify_eq.
  - intros id d a w s Hd Hreg Hs Hcase.
    pose proof (tryEnableMixin_quiet (Some d) w) as [Hq Hb].
    unfold start_device, getDeviceById. rewrite bind_gets, Hd.
    destruct (run (Some d) w) as [r w1] eqn:Hrun.
    unfold status_of in Hs. cbn [fst] in Hs. subst r.
    erewrite bind_Ok by exact Hrun.
    assert (is_Setup s || is_AlreadySetup s = true) as ->
      by (by destruct Hcase as [-> | ->]).
    rewrite (discover_and_bridge_registered d a w1 Hreg).
    unfold world_of in *. cbn [snd] in Hq, Hb.
    destruct (discover a d); cbn [snd]; by rewrite <- Hq, <- Hb.
Qed.

Lemma forEach_app {A} (l1 l2 : list A) (body : A → M unit) (w : World) :
  forEach (l1 ++ l2) body w
  = match forEach l1 body w with
    | (Ok _, w1) => forEach l2 body w1
    | (Throw e, w1) => (Throw e, w1)
    end.
Proof.
  revert w. induction l1 as [|x l1 IH]; intros w; [done |].
  cbn [app forEach]. unfold bind.
  destruct (body x w) as [[[]|e] w1]; [apply IH | done].
Qed.

(** C9 (as the code has it).  The startup loop has no handler around its
    body: when the evaluation of one device throws, during enrollment or
    during [discover], [start] throws the same error in the world that
    device left.  The devices enumerated before it have been processed;
    the devices after it are not processed and the server is not
    started. *)
Theorem start_aborts_on_device_error
    (before after : list string) (id : string) (w w1 w2 : World) (e : Error) :
  forEach before (start_device this_id token supportedTypes platform) w = (Ok tt, w1) →
  visit id w1 = (Throw e, w2) →
  start this_id token supportedTypes platform (before ++ id :: after) w = (Throw e, w2).
Proof.
  intros Hbefore Hid. unfold start.
  apply bind_Throw.
  rewrite forEach_app, Hbefore. cbn [forEach].
  by apply bind_Throw.
Qed.

End Startup.

Lemma discover_calls_by_status_witness :
  discover_calls
    (trace (world_of (listen_callback Scenario.plugin includeToken registered_types
                        Scenario.accepting (Some Scenario.plug) Scenario.onOff_event
                        (JsBoolean true) Scenario.fresh)))
  = 0
  ∧ discover_calls
      (trace (world_of (start_device Scenario.plugin includeToken registered_types
                          Scenario.accepting "4" Scenario.fresh)))
    = 0
  ∧ discover_calls
      (trace (world_of (start_device Scenario.plugin includeToken registered_types
                          Scenario.accepting "3" Scenario.fresh)))
    = 1.
Proof.
  destruct (discover_calls_by_status Scenario.plugin includeToken registered_types
              Scenario.accepting) as (Hfeed & Hskip & Hvisit).
  split; [| split].
  - refine (proj1 (Hfeed (Some Scenario.plug) Scenario.onOff_event (JsBoolean true)
                     Scenario.fresh _)).
    vm_compute. discriminate.
  - refine (proj1 (Hskip "4" Scenario.fresh _)).
    vm_compute. reflexivity.
  - refine (proj1 (Hvisit "3" Scenario.plug switch_adapter Scenario.fresh
                     DeviceMixinStatus.AlreadySetup _ _ _ _)).
    + vm_compute. reflexivity.
    + vm_compute. reflexivity.
    + vm_compute. reflexivity.
    + right. reflexivity.
Defined.

(** C2, where the code departs from the claim: at startup the plug is
    classified [AlreadySetup], and the enumeration calls [discover] and
    [addBridgedDevice] for it. *)
Lemma startup_discovers_already_setup_device :
  systemState Scenario.fresh !! "3" = Some Scenario.plug
  ∧ status_of (tryEnableMixin Scenario.plugin includeToken registered_types
                 Scenario.accepting (Some Scenario.plug) Scenario.fresh)
    = Ok DeviceMixinStatus.AlreadySetup
  ∧ trace (world_of (start_device Scenario.plugin includeToken registered_types
                       Scenario.accepting "3" Scenario.fresh))
    = [CallAddBridgedDevice (Some (OnOffPluginUnitDevice "3")) "Plug";
       CallDiscover "Switch" "3";
       RegistryGet "Switch"]
  ∧ discover_calls
      (trace (world_of (start_device Scenario.plugin includeToken registered_types
                          Scenario.accepting "3" Scenario.fresh)))
    = 1
  ∧ addBridgedDevice_calls
      (trace (world_of (start_device Scenario.plugin includeToken registered_types
                          Scenario.accepting "3" Scenario.fresh)))
    = 1.
Proof. repeat split; vm_compute; reflexivity. Qed.

Lemma start_aborts_on_device_error_witness :
  start Scenario.plugin includeToken registered_types (Scenario.rejecting "1")
    ([] ++ "1" :: ["2"]) Scenario.fresh
  = (Throw (ExternalError "setMixins rejected"),
     world_of (start_device Scenario.plugin includeToken registered_types
                 (Scenario.rejecting "1") "1" Scenario.fresh)).
Proof.
  apply (start_aborts_on_device_error Scenario.plugin includeToken registered_types
           (Scenario.rejecting "1") [] ["2"] "1" Scenario.fresh Scenario.fresh).
  - reflexivity.
  - vm_compute. reflexivity.
Defined.

(** C9, where the code departs from the claim: the platform rejects the
    enrollment of the lamp, the first of two devices; [start] throws, and
    the bulb, which alone would be enrolled and discovered, is never
    evaluated; the server is not started. *)
Lemma start_skips_devices_after_a_failure :
  status_of (start Scenario.plugin includeToken registered_types
               (Scenario.rejecting "1") ["1"; "2"] Scenario.fresh)
  = Throw (ExternalError "setMixins rejected")
  ∧ trace (world_of (start Scenario.plugin includeToken registered_types
                       (Scenario.rejecting "1") ["1"; "2"] Scenario.fresh))
    = [Platform (SetMixins "1" ["matter"]);
       Platform (GetComponent "plugins");
       RegistryHas "Switch"]
  ∧ trace (world_of (start Scenario.plugin includeToken registered_types
                       (Scenario.rejecting "1") ["2"] Scenario.fresh))
    = [ServerStart;
       CallAddBridgedDevice (Some (OnOffLightDevice "2")) "Bulb";
       CallDiscover "Light" "2";
       RegistryGet "Light";
       Platform (SetMixins "2" ["matter"]);
       Platform (GetComponent "plugins");
       RegistryHas "Light"].
Proof. repeat split; vm_compute; reflexivity. Qed.

(** * Further properties of the plugin *)

(** ** Storage keys *)

Section StorageKeys.

Import Stdlib.Strings.Ascii.
Import StringPrototypeFacts.

Lemma join_singleton (x : string) : join "." [x] = x.
Proof. reflexivity. Qed.

Lemma join_cons (x y : string) (l : list string) :
  join "." (x :: y :: l) = x +:+ "." +:+ join "." (y :: l).
Proof. reflexivity. Qed.

Lemma join_snoc (contexts : list string) (k : string) :
  contexts ≠ [] → join "." (contexts ++ [k]) = join "." contexts +:+ "." +:+ k.
Proof.
  induction contexts as [|x [|y l] IH]; intros Hne; [done | done |].
  change ((x :: y :: l) ++ [k]) with (x :: y :: (l ++ [k])).
  rewrite !join_cons.
  change (y :: l ++ [k]) with ((y :: l) ++ [k]).
  rewrite IH by done. by rewrite !app_assoc.
Qed.

Lemma startsWith_dot_cons (c : Ascii.ascii) (s : string) :
  startsWith "." (String c s) = true ↔ c = "."%char.
Proof.
  rewrite startsWith_spec. split.
  - intros [r Hr]. rewrite app_cons in Hr. congruence.
  - intros ->. by exists s.
Qed.

Lemma dot_free_cons (c : Ascii.ascii) (s : string) :
  dot_free (String c s) ↔ c ≠ "."%char ∧ dot_free s.
Proof.
  unfold dot_free. rewrite includes_cons, orb_false_iff.
  rewrite <- startsWith_dot_cons with (s := s).
  destruct (startsWith "." (String c s)); split; intros [? ?]; split; congruence.
Qed.

Lemma dot_free_no_split (x a b : string) :
  dot_free x → x ≠ a +:+ "." +:+ b.
Proof.
  unfold dot_free. intros Hx Heq.
  assert (includes "." x = true) by (apply includes_spec; eauto).
  congruence.
Qed.

Lemma dot_free_split_unique (x y r r' : string) :
  dot_free x → dot_free y →
  x +:+ "." +:+ r = y +:+ "." +:+ r' → x = y ∧ r = r'.
Proof.
  revert y. induction x as [|c x IH]; intros [|d y] Hx Hy Heq.
  - rewrite !app_nil_l in Heq. split; [done |].
    by apply (inj (String.append ".")) in Heq.
  - exfalso. rewrite app_nil_l, !app_cons in Heq.
    apply dot_free_cons in Hy as [Hd _].
    injection Heq as Heq _. congruence.
  - exfalso. rewrite app_nil_l, !app_cons in Heq.
    apply dot_free_cons in Hx as [Hc _].
    injection Heq as Heq _. congruence.
  - rewrite !app_cons in Heq. injection Heq as -> Heq.
    apply dot_free_cons in Hx as [_ Hx], Hy as [_ Hy].
    destruct (IH y Hx Hy Heq) as [-> ->]. done.
Qed.

Lemma join_inj (l l' : list string) :
  l ≠ [] → l' ≠ [] → Forall dot_free l → Forall dot_free l' →
  join "." l = join "." l' → l = l'.
Proof.
  revert l'. induction l as [|x [|y l] IH]; intros [|x' [|y' l']] Hl Hl' Hf Hf' Heq;
    try done.
  - rewrite !join_singleton in Heq. by subst.
  - exfalso. rewrite join_singleton, join_cons in Heq.
    apply Forall_cons in Hf as [Hx _].
    by apply (dot_free_no_split x x' (join "." (y' :: l'))).
  - exfalso. rewrite join_singleton, join_cons in Heq.
    apply Forall_cons in Hf' as [Hx' _].
    by apply (dot_free_no_split x' x (join "." (y :: l))).
  - rewrite !join_cons in Heq.
    apply Forall_cons in Hf as [Hx Hf], Hf' as [Hx' Hf'].
    destruct (dot_free_split_unique _ _ _ _ Hx Hx' Heq) as [-> Hrest].
    f_equal. by apply IH.
Qed.

Lemma buildStorageKey_Ok_inv (contexts : list string) (key k : string) :
  buildStorageKey contexts key = Ok k →
  contexts ≠ [] ∧ key ≠ "" ∧ ¬ malformed_context (join "." contexts)
  ∧ k = join "." (contexts ++ [key]).
Proof.
  intros Hok.
  pose proof (buildStorageKey_throw_iff contexts key) as Hiff.
  rewrite Hok in Hiff. simpl in Hiff.
  assert (Hk : key ≠ "") by tauto.
  assert (Hc : ¬ malformed_context (join "." contexts)) by tauto.
  assert (Hne : contexts ≠ []).
  { intros ->. apply Hc. by left. }
  rewrite (buildStorageKey_ok contexts key Hk Hc) in Hok.
  rewrite join_snoc by done. by simplify_eq.
Qed.

Lemma buildStorageKey_inj_dot_free (contexts contexts' : list string) (key key' k : string) :
  Forall dot_free contexts → Forall dot_free contexts' →
  dot_free key → dot_free key' →
  buildStorageKey contexts key = Ok k →
  buildStorageKey contexts' key' = Ok k →
  contexts = contexts' ∧ key = key'.
Proof.
  intros Hf Hf' Hk Hk' Hok Hok'.
  apply buildStorageKey_Ok_inv in Hok as (_ & _ & _ & ->).
  apply buildStorageKey_Ok_inv in Hok' as (_ & _ & _ & Heq).
  apply join_inj in Heq.
  - by apply app_inj_tail in Heq.
  - by destruct contexts.
  - by destruct contexts'.
  - apply Forall_app; auto.
  - apply Forall_app; auto.
Qed.

Lemma malformed_context_snoc (contexts : list string) (k : string) :
  contexts ≠ [] →
  malformed_context (join "." contexts) → malformed_context (join "." (contexts ++ [k])).
Proof.
  intros Hne Hm. rewrite join_snoc by done.
  destruct Hm as [-> | [(a & b & ->) | [(r & ->) | (r & ->)]]].
  - right; right; left. by exists k.
  - right; left. exists a, (b +:+ "." +:+ k). by rewrite !app_assoc.
  - right; right; left. exists (r +:+ "." +:+ k). by rewrite !app_assoc.
  - right; left. exists r, k. by rewrite !app_assoc.
Qed.

End StorageKeys.

(** ** The store interface *)

Section StoreInterface.

Variable T : Type.
Variable toJson : T → string.
Variable fromJson : string → T.

Local Abbreviation get := (Storage.get T fromJson).
Local Abbreviation set := (Storage.set T toJson).
Local Abbreviation delete := (Storage.delete).

Lemma empty_access_iff (contexts : list string) (key : string) :
  Storage.empty_access contexts key = true ↔ contexts = [] ∨ key = "".
Proof.
  unfold Storage.empty_access.
  rewrite orb_true_iff, StringPrototypeFacts.length_zero.
  destruct contexts; simpl; intuition congruence.
Qed.

Lemma empty_access_false (contexts : list string) (key k : string) :
  buildStorageKey contexts key = Ok k → Storage.empty_access contexts key = false.
Proof.
  intros (Hc & Hk & _)%buildStorageKey_Ok_inv.
  apply not_true_is_false. rewrite empty_access_iff. tauto.
Qed.

(** X1.  [get], [set] and [delete] fail in the same cases as
    [buildStorageKey], and leave the storage as it was when they fail: with
    an empty context list or an empty key the error is "Context and key
    must not be empty strings!", with a malformed joined context it is the
    error of [buildStorageKey]; in every other case all three return. *)
Theorem storage_access_errors
    (contexts : list string) (key : string) (value : T) (storage : gmap string string) :
  (contexts = [] ∨ key = "" →
   get contexts key storage = (Throw (StorageError Storage.empty_error_message), storage)
   ∧ set contexts key value storage
     = (Throw (StorageError Storage.empty_error_message), storage)
   ∧ delete contexts key storage
     = (Throw (StorageError Storage.empty_error_message), storage))
  ∧ (contexts ≠ [] → key ≠ "" → malformed_context (join "." contexts) →
     get contexts key storage = (Throw (StorageError storage_error_message), storage)
     ∧ set contexts key value storage
       = (Throw (StorageError storage_error_message), storage)
     ∧ delete contexts key storage
       = (Throw (StorageError storage_error_message), storage))
  ∧ (contexts ≠ [] → key ≠ "" → ¬ malformed_context (join "." contexts) →
     ¬ is_Throw (fst (get contexts key storage))
     ∧ fst (set contexts key value storage) = Ok tt
     ∧ fst (delete contexts key storage) = Ok tt).
Proof.
  split; [| split].
  - intros He. apply empty_access_iff in He.
    unfold Storage.get, Storage.set, Storage.delete. by rewrite He.
  - intros Hc Hk Hm.
    assert (He : Storage.empty_access contexts key = false).
    { apply not_true_is_false. rewrite empty_access_iff. tauto. }
    assert (Ht : buildStorageKey contexts key = Throw (StorageError storage_error_message)).
    { pose proof (buildStorageKey_throw_iff contexts key) as Hiff.
      unfold buildStorageKey in *. cbv zeta in *.
      destruct (_ || _ || _ || _ || _); [done |].
      simpl in Hiff. exfalso. apply Hiff. by right. }
    unfold Storage.get, Storage.set, Storage.delete. by rewrite He, Ht.
  - intros Hc Hk Hm.
    assert (He : Storage.empty_access contexts key = false).
    { apply not_true_is_false. rewrite empty_access_iff. tauto. }
    unfold Storage.get, Storage.set, Storage.delete.
    rewrite He, (buildStorageKey_ok contexts key Hk Hm).
    destruct (storage !! _); simpl; tauto.
Qed.

(** X2.  What [set] stores, [get] reads back: when the codec round-trips,
    a [get] after a successful [set] at the same contexts and key returns
    the value set, whatever the storage held before. *)
Theorem storage_set_get
    (contexts : list string) (key : string) (value : T)
    (storage storage' : gmap string string) :
  (∀ v, fromJson (toJson v) = v) →
  set contexts key value storage = (Ok tt, storage') →
  get contexts key storage' = (Ok (Some value), storage').
Proof.
  intros Hcodec Hset. unfold Storage.set, Storage.get in *.
  destruct (Storage.empty_access contexts key); [done |].
  destruct (buildStorageKey contexts key) as [k|e]; [| done].
  simplify_eq. by rewrite lookup_insert_eq, Hcodec.
Qed.

(** X3.  [get] never changes the storage and answers "absent" for a key
    that is not stored; after a successful [delete] the key is absent, and
    deleting a key that is not stored changes nothing. *)
Theorem storage_get_delete
    (contexts : list string) (key k : string) (storage : gmap string string) :
  buildStorageKey contexts key = Ok k →
  snd (get contexts key storage) = storage
  ∧ (storage !! k = None → get contexts key storage = (Ok None, storage))
  ∧ get contexts key (snd (delete contexts key storage))
    = (Ok None, snd (delete contexts key storage))
  ∧ (storage !! k = None → delete contexts key storage = (Ok tt, storage)).
Proof.
  intros Hk. pose proof (empty_access_false _ _ _ Hk) as He.
  unfold Storage.get, Storage.delete. rewrite He, Hk. cbn [snd].
  rewrite lookup_delete_eq.
  repeat split.
  - by destruct (storage !! k).
  - by intros ->.
  - intros Hnone. by rewrite delete_id.
Qed.

(** X4.  Locations whose segments and keys hold no separator do not
    interfere: two different such locations are given different storage
    keys, and neither a [set] nor a [delete] at one changes what [get]
    answers at the other. *)
Theorem storage_locations_independent
    (contexts contexts' : list string) (key key' k k' : string) (value : T)
    (storage : gmap string string) :
  Forall dot_free contexts → Forall dot_free contexts' →
  dot_free key → dot_free key' →
  (contexts, key) ≠ (contexts', key') →
  buildStorageKey contexts key = Ok k →
  buildStorageKey contexts' key' = Ok k' →
  k ≠ k'
  ∧ fst (get contexts' key' (snd (set contexts key value storage)))
    = fst (get contexts' key' storage)
  ∧ fst (get contexts' key' (snd (delete contexts key storage)))
    = fst (get contexts' key' storage).
Proof.
  intros Hf Hf' Hd Hd' Hne Hk Hk'.
  assert (Hkk : k ≠ k').
  { intros <-. destruct (buildStorageKey_inj_dot_free _ _ _ _ _ Hf Hf' Hd Hd' Hk Hk').
    congruence. }
  split; [done |].
  pose proof (empty_access_false _ _ _ Hk) as He.
  pose proof (empty_access_false _ _ _ Hk') as He'.
  unfold Storage.get, Storage.set, Storage.delete.
  rewrite He, He', Hk, Hk'. cbn [snd].
  rewrite lookup_insert_ne, lookup_delete_ne by done.
  by destruct (storage !! k').
Qed.

(** X5.  A key that contains the separator aliases a deeper location: the
    access with contexts [cs ++ [k]] and key [key] and the access with
    contexts [cs] and key [k.key] build the same storage key, so a value
    set through one is read through the other. *)
Theorem storage_key_alias
    (contexts : list string) (k key : string) (value : T) (storage : gmap string string) :
  contexts ≠ [] →
  key ≠ "" →
  ¬ malformed_context (join "." (contexts ++ [k])) →
  buildStorageKey (contexts ++ [k]) key = buildStorageKey contexts (k +:+ "." +:+ key)
  ∧ ¬ is_Throw (buildStorageKey (contexts ++ [k]) key)
  ∧ fst (get contexts (k +:+ "." +:+ key) (snd (set (contexts ++ [k]) key value storage)))
    = Ok (Some (fromJson (toJson value))).
Proof.
  intros Hne Hkey Hm.
  assert (Hm' : ¬ malformed_context (join "." contexts)).
  { intros H. by apply Hm, malformed_context_snoc. }
  assert (Hk' : k +:+ "." +:+ key ≠ "").
  { destruct k; discriminate. }
  assert (H1 : buildStorageKey (contexts ++ [k]) key
               = Ok (join "." contexts +:+ "." +:+ k +:+ "." +:+ key)).
  { rewrite (buildStorageKey_ok _ _ Hkey Hm), join_snoc by done.
    by rewrite !StringPrototypeFacts.app_assoc. }
  assert (H2 : buildStorageKey contexts (k +:+ "." +:+ key)
               = Ok (join "." contexts +:+ "." +:+ k +:+ "." +:+ key)).
  { by rewrite (buildStorageKey_ok _ _ Hk' Hm'). }
  split; [by rewrite H1, H2 |]. split; [rewrite H1; simpl; tauto |].
  unfold Storage.get, Storage.set.
  rewrite (empty_access_false _ _ _ H1), (empty_access_false _ _ _ H2), H1, H2.
  cbn [snd]. by rewrite lookup_insert_eq.
Qed.

End StoreInterface.

(** ** More on the enrollment state machine *)

Section EnrollmentEffects.

Variable this_id : string.
Variable token : Z.
Variable supportedTypes : gmap string SupportedType.
Variable platform : PlatformCall → Result unit.

Local Abbreviation run device w :=
  (tryEnableMixin this_id token supportedTypes platform device w).

(** Every way a run for a present device can end. *)
Lemma tryEnableMixin_outcomes (d : ScryptedDevice.t) (w : World) :
  run (Some d) w = (Ok DeviceMixinStatus.AlreadySetup, w)
  ∨ run (Some d) w
    = (Ok DeviceMixinStatus.NotSupported, log (RegistryHas (ScryptedDevice.type d)) w)
  ∨ (is_Some (supportedTypes !! ScryptedDevice.type d)
     ∧ run (Some d) w = (Ok DeviceMixinStatus.Setup, enrolled this_id token d w))
  ∨ (∃ e, run (Some d) w
          = (Throw e,
             log (Platform (GetComponent "plugins"))
               (log (RegistryHas (ScryptedDevice.type d)) w)))
  ∨ (∃ e, run (Some d) w
          = (Throw e,
             log (Platform (SetMixins (ScryptedDevice.id d) (mixins_of d ++ [this_id])))
               (log (Platform (GetComponent "plugins"))
                  (log (RegistryHas (ScryptedDevice.type d)) w)))).
Proof.
  pose proof (transition_cases this_id token supportedTypes (Some d) w) as Hc.
  destruct (Spec.transition _ _ _ _ _).
  - destruct Hc as [? | (d' & [= <-] & Hin & Hrec & Hreg)]; [done |].
    right; left. by apply tryEnableMixin_no_adapter.
  - destruct Hc as (d' & [= <-] & Hin & Hrec & Hreg).
    rewrite tryEnableMixin_needs_setup by done.
    destruct (answer _ _) as [[]|e]; [by right; right; left |].
    destruct (platform (GetComponent "plugins"));
      [right; right; right; right | right; right; right; left]; by exists e.
  - destruct Hc as (d' & [= <-] & [Hin | Hrec]); left.
    + by apply tryEnableMixin_attached.
    + by apply tryEnableMixin_recorded.
Qed.

(** X6.  What a run does to the platform.  A run that returns [Setup] has
    asked the platform exactly twice, for the plugins component and then to
    set the device's mixin list to its former mixins followed by the
    controller, and has recorded the token for the device.  A run that
    returns [AlreadySetup] or [NotSupported] asks the platform nothing and
    changes no state. *)
Theorem tryEnableMixin_platform_calls
    (d : ScryptedDevice.t) (w w' : World) (s : DeviceMixinStatus.t) :
  run (Some d) w = (Ok s, w') →
  match s with
  | DeviceMixinStatus.Setup =>
      trace w'
      = Platform (SetMixins (ScryptedDevice.id d) (mixins_of d ++ [this_id]))
        :: Platform (GetComponent "plugins")
        :: RegistryHas (ScryptedDevice.type d) :: trace w
      ∧ record_of w' = <[ScryptedDevice.id d := token]> (record_of w)
      ∧ systemState w'
        = alter (ScryptedDevice.with_mixins (mixins_of d ++ [this_id]))
            (ScryptedDevice.id d) (systemState w)
  | _ =>
      same_state w w'
      ∧ List.filter is_Platform (trace w') = List.filter is_Platform (trace w)
  end.
Proof.
  intros Hrun.
  destruct (tryEnableMixin_outcomes d w) as [H | [H | [[_ H] | [[e H] | [e H]]]]];
    rewrite H in Hrun; simplify_eq; done.
Qed.

(** X7.  Whatever its outcome, a run for one device leaves every other
    device as it was: their entries of the enrollment record and of the
    system state are unchanged, and so are the synced-device set, the
    plugin's device table and the debug flag. *)
Theorem tryEnableMixin_frame (d : ScryptedDevice.t) (w : World) (k : string) :
  k ≠ ScryptedDevice.id d →
  record_of (world_of (run (Some d) w)) !! k = record_of w !! k
  ∧ systemState (world_of (run (Some d) w)) !! k = systemState w !! k
  ∧ syncedDevices (world_of (run (Some d) w)) = syncedDevices w
  ∧ devices (world_of (run (Some d) w)) = devices w
  ∧ DEBUG (world_of (run (Some d) w)) = DEBUG w.
Proof.
  intros Hk.
  destruct (tryEnableMixin_outcomes d w) as [H | [H | [[_ H] | [[e H] | [e H]]]]];
    rewrite H; try done.
  unfold world_of, enrolled, record_of; simpl.
  rewrite lookup_insert_ne, lookup_alter_ne by done. done.
Qed.

(** X8.  The record outlives the mixin.  For a device whose record holds
    the current token and whose mixin list no longer holds the controller,
    [releaseMixin] writes the removal to the log and changes nothing, and
    the next evaluation of the device returns [AlreadySetup] without
    asking the platform: the device is not attached again. *)
Theorem release_then_evaluate (k : string) (d : ScryptedDevice.t) (w : World) :
  systemState w !! k = Some d →
  this_id ∉ mixins_of d →
  record_of w !! ScryptedDevice.id d = Some token →
  releaseMixin this_id k w
  = (Ok ["Device removed from Matter Bridge: " +:+ ScryptedDevice.name d +:+ "."], w)
  ∧ run (Some d) w = (Ok DeviceMixinStatus.AlreadySetup, w).
Proof.
  intros Hd Hin Hrec. split; [| by apply tryEnableMixin_recorded].
  unfold releaseMixin, getDeviceById. rewrite bind_gets, Hd.
  unfold Array_includes. fold (mixins_of d).
  by rewrite bool_decide_eq_false_2.
Qed.

(** X9.  [canMixin] and the machine agree on categories: [canMixin]
    answers the empty interface list exactly for the categories with an
    adapter, whatever interfaces it is given, and the machine returns
    [Setup] only for a device whose category [canMixin] accepts. *)
Theorem canMixin_agrees
    (d : ScryptedDevice.t) (interfaces : list string) (w w0 : World) :
  (status_of (canMixin supportedTypes (ScryptedDevice.type d) interfaces w0) = Ok (Some [])
   ↔ is_Some (supportedTypes !! ScryptedDevice.type d))
  ∧ (status_of (canMixin supportedTypes (ScryptedDevice.type d) interfaces w0) = Ok None
     ↔ supportedTypes !! ScryptedDevice.type d = None)
  ∧ (status_of (run (Some d) w) = Ok DeviceMixinStatus.Setup →
     status_of (canMixin supportedTypes (ScryptedDevice.type d) interfaces w0)
     = Ok (Some [])).
Proof.
  assert (Hcan : status_of (canMixin supportedTypes (ScryptedDevice.type d) interfaces w0)
                 = if bool_decide (is_Some (supportedTypes !! ScryptedDevice.type d))
                   then Ok (Some []) else Ok None).
  { unfold canMixin, registry_has, status_of, bind, emit, modify, ret. cbn [fst].
    by destruct (bool_decide _). }
  rewrite Hcan. split; [| split].
  - case_bool_decide; split; intros; done.
  - case_bool_decide as Hs; split; intros H; try done.
    + rewrite H in Hs. by destruct Hs.
    + apply eq_None_not_Some in Hs. done.
  - intros Hs.
    destruct (tryEnableMixin_outcomes d w) as [H | [H | [[Hreg H] | [[e H] | [e H]]]]];
      rewrite H in Hs; try done.
    by rewrite bool_decide_eq_true_2.
Qed.

End EnrollmentEffects.

(** ** More on the event dispatcher *)

Section DispatchEffects.

Variable supportedTypes : gmap string SupportedType.

Local Abbreviation dispatch source details data w :=
  (deviceListen supportedTypes source details data w).

Lemma issued_trace (id : string) (commands : list DeviceCommand) (w : World) :
  same_state w (issued id commands w)
  ∧ trace (issued id commands w) = rev (map (Command id) commands) ++ trace w.
Proof.
  unfold issued. revert w.
  induction commands as [|c commands IH]; intros w; [done |].
  cbn [fold_left map rev]. destruct (IH (log (Command id c) w)) as [Hs Ht].
  split; [exact Hs |]. rewrite Ht. cbn [trace log]. by rewrite <- app_assoc.
Qed.

(** Every way a dispatch can end. *)
Lemma deviceListen_cases
    (source : option ScryptedDevice.t) (details : EventDetails) (data : JsValue)
    (w : World) :
  ((source = None
    ∨ (∃ d, source = Some d ∧ ScryptedDevice.id d ∉ syncedDevices w)
    ∨ eventInterface details = ScryptedInterface.ScryptedDevice)
   ∧ dispatch source details data w = (Ok tt, w))
  ∨ (∃ d, source = Some d
          ∧ ScryptedDevice.id d ∈ syncedDevices w
          ∧ eventInterface details ≠ ScryptedInterface.ScryptedDevice
          ∧ supportedTypes !! ScryptedDevice.type d = None
          ∧ dispatch source details data w
            = (Ok tt, log (RegistryGet (ScryptedDevice.type d)) w))
  ∨ (∃ d a commands result,
        source = Some d
        ∧ ScryptedDevice.id d ∈ syncedDevices w
        ∧ eventInterface details ≠ ScryptedInterface.ScryptedDevice
        ∧ supportedTypes !! ScryptedDevice.type d = Some a
        ∧ sendEvent a d details data = (commands, result)
        ∧ let w1 :=
            issued (ScryptedDevice.id d) commands
              (log (CallSendEvent (ScryptedDevice.type d) (ScryptedDevice.id d)
                      (eventInterface details))
                 (log (RegistryGet (ScryptedDevice.type d)) w)) in
          dispatch source details data w
          = match result with
            | Throw e => (Throw e, w1)
            | Ok status =>
                (Ok tt,
                 if bool_decide (warned status details)
                 then log (ConsoleWarn (not_supported_message details d)) w1
                 else if DEBUG w1
                      then log (ConsoleDebug (eventInterface details) (property details)
                                  (ScryptedDevice.type d)) w1
                      else w1)
            end).
Proof.
  destruct source as [d|]; [| left; split; [by left | done]].
  destruct (decide (ScryptedDevice.id d ∈ syncedDevices w)) as [Hin | Hin].
  2: { left. split; [right; left; eauto |].
       unfold deviceListen, Array_includes. rewrite bind_gets.
       by rewrite bool_decide_eq_false_2. }
  destruct (String.eqb_spec (eventInterface details) ScryptedInterface.ScryptedDevice)
    as [Hif | Hif].
  { left. split; [by right; right |].
    unfold deviceListen, Array_includes. rewrite bind_gets.
    rewrite bool_decide_eq_true_2 by done. cbn [negb].
    apply String.eqb_eq in Hif. by rewrite Hif. }
  right.
  assert (Hrun : dispatch (Some d) details data w
                 = match supportedTypes !! ScryptedDevice.type d with
                   | None => (Ok tt, log (RegistryGet (ScryptedDevice.type d)) w)
                   | Some a =>
                     let w1 :=
                       issued (ScryptedDevice.id d) (sendEvent a d details data).1
                         (log (CallSendEvent (ScryptedDevice.type d) (ScryptedDevice.id d)
                                 (eventInterface details))
                            (log (RegistryGet (ScryptedDevice.type d)) w)) in
                     match (sendEvent a d details data).2 with
                     | Throw e => (Throw e, w1)
                     | Ok status =>
                       (Ok tt,
                        if bool_decide (warned status details)
                        then log (ConsoleWarn (not_supported_message details d)) w1
                        else if DEBUG w1
                             then log (ConsoleDebug (eventInterface details)
                                         (property details) (ScryptedDevice.type d)) w1
                             else w1)
                     end
                   end).
  { unfold deviceListen, Array_includes. rewrite bind_gets.
    rewrite bool_decide_eq_true_2 by done. cbn [negb].
    apply String.eqb_neq in Hif. rewrite Hif.
    rewrite bind_registry_get.
    destruct (supportedTypes !! ScryptedDevice.type d) as [a|]; [| done].
    rewrite bind_emit.
    destruct (sendEvent a d details data) as [commands result]. cbn [fst snd].
    erewrite bind_Ok by apply forEach_commands. fold (issued (ScryptedDevice.id d) commands).
    destruct result as [status|e]; [| by rewrite bind_lift_Throw].
    rewrite bind_lift_Ok. cbv zeta.
    pose proof (report_warnings (eventInterface details) status) as Hrep.
    cbv zeta in Hrep. rewrite Hrep. clear Hrep. fold (warned status details).
    destruct (bool_decide (warned status details)); [done |].
    rewrite bind_gets. by destruct (DEBUG _). }
  destruct (supportedTypes !! ScryptedDevice.type d) as [a|] eqn:Hreg.
  - right. exists d, a, (sendEvent a d details data).1, (sendEvent a d details data).2.
    repeat split; try done. by destruct (sendEvent a d details data).
  - left. exists d. done.
Qed.

Lemma filter_commands (P : Effect → bool) (id : string) (commands : list DeviceCommand) :
  (∀ c, P (Command id c) = false) →
  List.filter P (rev (map (Command id) commands)) = [].
Proof.
  intros HP. induction commands as [|c commands IH]; [done |].
  cbn [map rev]. rewrite List.filter_app, IH. cbn [List.filter]. by rewrite HP.
Qed.

Lemma forallb_commands (id : string) (commands : list DeviceCommand) :
  forallb is_dispatch_effect (rev (map (Command id) commands)) = true.
Proof.
  induction commands as [|c commands IH]; [done |].
  cbn [map rev]. by rewrite forallb_app, IH.
Qed.

Lemma filter_new_effects (P Q : Effect → bool) (new old : list Effect) :
  forallb Q new = true →
  (∀ e, Q e = true → P e = false) →
  List.filter P (new ++ old) = List.filter P old.
Proof.
  intros Hnew HPQ. rewrite List.filter_app.
  induction new as [|e new IH]; [done |].
  cbn [forallb] in Hnew. apply andb_prop in Hnew as [He Hnew].
  cbn [List.filter]. rewrite (HPQ e He). by apply IH.
Qed.

(** A dispatch changes no state and adds only dispatch effects. *)
Lemma deviceListen_effects
    (source : option ScryptedDevice.t) (details : EventDetails) (data : JsValue)
    (w : World) :
  same_state w (world_of (dispatch source details data w))
  ∧ ∃ new, trace (world_of (dispatch source details data w)) = new ++ trace w
           ∧ forallb is_dispatch_effect new = true.
Proof.
  destruct (deviceListen_cases source details data w)
    as [[_ H] | [(d & _ & _ & _ & _ & H) | (d & a & commands & result & _ & _ & _ & _ & _ & H)]].
  - rewrite H. split; [done |]. by exists [].
  - rewrite H. split; [done |]. by exists [RegistryGet (ScryptedDevice.type d)].
  - cbv zeta in H. rewrite H.
    match goal with |- context [issued ?i commands ?w0] =>
      destruct (issued_trace i commands w0) as [Hs Ht];
      set (w1 := issued i commands w0) in *
    end.
    assert (Hw1 : trace w1
                  = (rev (map (Command (ScryptedDevice.id d)) commands)
                     ++ [CallSendEvent (ScryptedDevice.type d) (ScryptedDevice.id d)
                           (eventInterface details);
                         RegistryGet (ScryptedDevice.type d)]) ++ trace w).
    { rewrite Ht. cbn [trace log]. by rewrite <- app_assoc. }
    assert (Hall : forallb is_dispatch_effect
                     (rev (map (Command (ScryptedDevice.id d)) commands)
                      ++ [CallSendEvent (ScryptedDevice.type d) (ScryptedDevice.id d)
                            (eventInterface details);
                          RegistryGet (ScryptedDevice.type d)]) = true).
    { by rewrite forallb_app, forallb_commands. }
    destruct result as [status|e]; unfold world_of; cbn [snd].
    + destruct (bool_decide _); [| destruct (DEBUG w1)].
      * split; [exact Hs |]. eexists (_ :: _). cbn [trace log]. rewrite Hw1.
        split; [reflexivity |]. cbn [forallb is_dispatch_effect]. exact Hall.
      * split; [exact Hs |]. eexists (_ :: _). cbn [trace log]. rewrite Hw1.
        split; [reflexivity |]. cbn [forallb is_dispatch_effect]. exact Hall.
      * split; [exact Hs |]. eauto.
    + split; [exact Hs |]. eauto.
Qed.

(** X10.  A dispatch only dispatches: whatever the event and the adapter,
    it changes neither the system state, the enrollment record, the
    synced-device set, the device table nor the debug flag, and it makes
    no platform call, no [discover] or [addBridgedDevice] call, no listener
    registration and no server start. *)
Theorem deviceListen_only_dispatches
    (source : option ScryptedDevice.t) (details : EventDetails) (data : JsValue)
    (w : World) :
  same_state w (world_of (dispatch source details data w))
  ∧ List.filter (λ e, negb (is_dispatch_effect e))
      (trace (world_of (dispatch source details data w)))
    = List.filter (λ e, negb (is_dispatch_effect e)) (trace w).
Proof.
  destruct (deviceListen_effects source details data w) as [Hs (new & -> & Hnew)].
  split; [exact Hs |].
  apply (filter_new_effects _ is_dispatch_effect); [done |].
  by intros e ->.
Qed.



(** X13.  Debug logging follows the flag: with [DEBUG] off a dispatch
    writes no debug line; with [DEBUG] on it writes exactly one for an event
    that an adapter answered and that was not warned about, and none
    otherwise. *)
Theorem deviceListen_debug
    (d : ScryptedDevice.t) (details : EventDetails) (data : JsValue) (w : World)
    (a : SupportedType) (commands : list DeviceCommand) (status : EventStatus.t) :
  ScryptedDevice.id d ∈ syncedDevices w →
  eventInterface details ≠ ScryptedInterface.ScryptedDevice →
  supportedTypes !! ScryptedDevice.type d = Some a →
  sendEvent a d details data = (commands, Ok status) →
  List.filter is_ConsoleDebug (trace (world_of (dispatch (Some d) details data w)))
  = (if DEBUG w && negb (bool_decide (warned status details))
     then [ConsoleDebug (eventInterface details) (property details) (ScryptedDevice.type d)]
     else [])
    ++ List.filter is_ConsoleDebug (trace w).
Proof.
  intros Hin Hif Hreg Hsend.
  destruct (deviceListen_cases (Some d) details data w)
    as [[Hc _] | [(d' & [= <-] & _ & _ & Hnone & _)
                 | (d' & a' & commands' & result & [= <-] & _ & _ & Hreg' & Hsend' & H)]].
  - destruct Hc as [? | [(d' & [= <-] & Hout) | ?]]; done.
  - simplify_eq.
  - assert (a' = a) as -> by congruence.
    assert (commands' = commands ∧ result = Ok status) as [-> ->]
      by (split; congruence).
    cbv zeta in H. rewrite H.
    match goal with |- context [issued ?i commands ?w0] =>
      destruct (issued_trace i commands w0) as [(_ & _ & _ & _ & HD) Ht];
      set (w1 := issued i commands w0) in *
    end.
    cbn [DEBUG log] in HD. rewrite <- HD.
    assert (Hf : List.filter is_ConsoleDebug (trace w1)
                 = List.filter is_ConsoleDebug (trace w)).
    { rewrite Ht, List.filter_app, filter_commands by done. done. }
    unfold world_of. cbn [snd].
    destruct (bool_decide (warned status details)), (DEBUG w1);
      cbn [andb negb trace log List.filter is_ConsoleDebug app]; by rewrite Hf.
Qed.

(** X14.  The switch and the light adapter behind the dispatcher: for a
    synced device whose category is registered with one of them, an on/off
    event issues exactly one command to that device, [turnOn] for a truthy
    payload and [turnOff] otherwise; an event of any other interface
    issues no command; in both cases the dispatch returns. *)
Theorem deviceListen_onOff_commands
    (d : ScryptedDevice.t) (details : EventDetails) (data : JsValue) (w : World)
    (a : SupportedType) :
  ScryptedDevice.id d ∈ syncedDevices w →
  eventInterface details ≠ ScryptedInterface.ScryptedDevice →
  supportedTypes !! ScryptedDevice.type d = Some a →
  a = switch_adapter ∨ a = light_adapter →
  status_of (dispatch (Some d) details data w) = Ok tt
  ∧ List.filter is_Command (trace (world_of (dispatch (Some d) details data w)))
    = (if String.eqb (eventInterface details) ScryptedInterface.OnOff
       then [Command (ScryptedDevice.id d) (if truthy data then turnOn else turnOff)]
       else [])
      ++ List.filter is_Command (trace w).
Proof.
  intros Hin Hif Hreg Ha.
  assert (Hsend : sendEvent a d details data
                  = if String.eqb (eventInterface details) ScryptedInterface.OnOff
                    then ([if truthy data then turnOn else turnOff], Ok EventStatus.Handled)
                    else ([], Ok EventStatus.NotSupported)).
  { destruct Ha as [-> | ->]; cbn [sendEvent switch_adapter light_adapter];
      by destruct (String.eqb _ _). }
  destruct (deviceListen_cases (Some d) details data w)
    as [[Hc _] | [(d' & [= <-] & _ & _ & Hnone & _)
                 | (d' & a' & commands & result & [= <-] & _ & _ & Hreg' & Hsend' & H)]].
  - destruct Hc as [? | [(d' & [= <-] & Hout) | ?]]; done.
  - simplify_eq.
  - assert (a' = a) as -> by congruence.
    cbv zeta in H. rewrite H. rewrite Hsend in Hsend'.
    unfold world_of, status_of, issued.
    destruct (String.eqb (eventInterface details) ScryptedInterface.OnOff);
      simplify_eq; cbn [fold_left fst snd];
      destruct (bool_decide _); [| destruct (DEBUG _) | | destruct (DEBUG _)]; done.
Qed.

End DispatchEffects.

(** ** More on the startup enumeration *)

Section StartupEffects.

Variable this_id : string.
Variable token : Z.
Variable supportedTypes : gmap string SupportedType.
Variable platform : PlatformCall → Result unit.

Local Abbreviation run device w :=
  (tryEnableMixin this_id token supportedTypes platform device w).
Local Abbreviation visit id w :=
  (start_device this_id token supportedTypes platform id w).
Local Abbreviation feed source details data w :=
  (listen_callback this_id token supportedTypes platform source details data w).

Lemma start_device_run (k : string) (w w1 : World) (s : DeviceMixinStatus.t) :
  run (systemState w !! k) w = (Ok s, w1) →
  visit k w
  = if is_Setup s || is_AlreadySetup s
    then discover_and_bridge supportedTypes (systemState w !! k) w1
    else (Ok tt, w1).
Proof.
  intros Hrun. unfold start_device, getDeviceById. rewrite bind_gets.
  erewrite bind_Ok by exact Hrun. by destruct (_ || _).
Qed.

(** X15.  A device that counts as enrolled, by its mixin list or by the
    record, but whose category has no adapter stops the startup: the
    machine returns [AlreadySetup], the registry has nothing for the
    category, and the enumeration throws a [TypeError] at that device,
    whatever devices follow. *)
Theorem start_throws_on_enrolled_device_without_adapter
    (k : string) (d : ScryptedDevice.t) (after : list string) (w : World) :
  systemState w !! k = Some d →
  this_id ∈ mixins_of d ∨ record_of w !! ScryptedDevice.id d = Some token →
  supportedTypes !! ScryptedDevice.type d = None →
  visit k w = (Throw undefined_discover, log (RegistryGet (ScryptedDevice.type d)) w)
  ∧ start this_id token supportedTypes platform (k :: after) w
    = (Throw undefined_discover, log (RegistryGet (ScryptedDevice.type d)) w).
Proof.
  intros Hd Hen Hreg.
  assert (Hrun : run (Some d) w = (Ok DeviceMixinStatus.AlreadySetup, w)).
  { destruct Hen; [by apply tryEnableMixin_attached | by apply tryEnableMixin_recorded]. }
  assert (Hv : visit k w
               = (Throw undefined_discover, log (RegistryGet (ScryptedDevice.type d)) w)).
  { rewrite (start_device_run k w w DeviceMixinStatus.AlreadySetup) by (by rewrite Hd).
    rewrite Hd. cbn [is_Setup is_AlreadySetup orb].
    by apply discover_and_bridge_unregistered. }
  split; [exact Hv |].
  unfold start. apply bind_Throw. cbn [forEach]. by apply bind_Throw.
Qed.






(** X18.  A failing dispatch does not fail the live feed: for a source the
    machine classifies [AlreadySetup], the callback returns, whatever the
    adapter's [sendEvent] does, be it an error. *)
Theorem listen_callback_isolates_dispatch
    (source : option ScryptedDevice.t) (details : EventDetails) (data : JsValue)
    (w : World) :
  status_of (run source w) = Ok DeviceMixinStatus.AlreadySetup →
  status_of (feed source details data w) = Ok tt.
Proof.
  intros Hs. unfold listen_callback.
  destruct (run source w) as [[s|e] w1] eqn:Hrun; [| done].
  unfold status_of in Hs. cbn [fst] in Hs. simplify_eq.
  erewrite bind_Ok by exact Hrun.
  cbn [is_Setup is_AlreadySetup orb]. rewrite bind_ret.
  destruct source as [d|]; [| by rewrite tryEnableMixin_absent in Hrun].
  rewrite bind_gets. by destruct (negb _).
Qed.

(** X19.  The listener on a source is registered once.  When the callback
    returns for a source that the machine does not classify
    [NotSupported], the source is in the plugin's device table afterwards,
    the other entries of the table are as before, and a listener was
    registered on the source exactly if it was not in the table yet. *)
Theorem listen_callback_registers_once
    (d : ScryptedDevice.t) (details : EventDetails) (data : JsValue) (w w' : World) :
  feed (Some d) details data w = (Ok tt, w') →
  status_of (run (Some d) w) ≠ Ok DeviceMixinStatus.NotSupported →
  devices w' = <[ScryptedDevice.id d := default d (devices w !! ScryptedDevice.id d)]> (devices w)
  ∧ List.filter is_CallListen (trace w')
    = match devices w !! ScryptedDevice.id d with
      | Some _ => []
      | None => [CallListen (ScryptedDevice.id d) ScryptedInterface.ObjectDetector]
      end
      ++ List.filter is_CallListen (trace w).
Proof.
  intros Hfeed Hs. unfold listen_callback in Hfeed.
  assert (Htail : ∀ w1,
            devices w1 = devices w →
            List.filter is_CallListen (trace w1) = List.filter is_CallListen (trace w) →
            (let* known := gets (λ w0, bool_decide (is_Some (devices w0 !! ScryptedDevice.id d))) in
             let* _ :=
               if negb known then
                 let* _ := modify (λ w0, set_devices
                                           (<[ScryptedDevice.id d := d]> (devices w0)) w0) in
                 emit (CallListen (ScryptedDevice.id d) ScryptedInterface.ObjectDetector)
               else ret tt in
             detached (deviceListen supportedTypes (Some d) details data)) w1 = (Ok tt, w') →
            devices w'
            = <[ScryptedDevice.id d := default d (devices w !! ScryptedDevice.id d)]> (devices w)
            ∧ List.filter is_CallListen (trace w')
              = match devices w !! ScryptedDevice.id d with
                | Some _ => []
                | None => [CallListen (ScryptedDevice.id d) ScryptedInterface.ObjectDetector]
                end
                ++ List.filter is_CallListen (trace w)).
  { intros w1 Hdev Htr Hrest.
    rewrite bind_gets, Hdev in Hrest.
    destruct (devices w !! ScryptedDevice.id d) as [d0|] eqn:Hknown.
    - rewrite bool_decide_eq_true_2 in Hrest by eauto. cbn [negb] in Hrest.
      rewrite bind_ret in Hrest. unfold detached in Hrest. simplify_eq.
      destruct (deviceListen_effects supportedTypes (Some d) details data w1)
        as [(_ & _ & _ & Hd' & _) (new & Hnew & Hall)].
      unfold world_of in *. rewrite Hd', Hdev, Hnew.
      split; [by rewrite insert_id |].
      rewrite (filter_new_effects _ is_dispatch_effect) by (done || by intros []).
      done.
    - rewrite bool_decide_eq_false_2 in Hrest by (by intros [? ?]). cbn [negb] in Hrest.
      erewrite bind_Ok in Hrest by (rewrite bind_modify; reflexivity).
      unfold detached in Hrest. simplify_eq.
      match goal with |- context [deviceListen _ _ _ _ ?w0] =>
        destruct (deviceListen_effects supportedTypes (Some d) details data w0)
          as [(_ & _ & _ & Hd' & _) (new & Hnew & Hall)]
      end.
      unfold world_of in *. rewrite Hd', Hnew.
      cbn [devices trace log set_devices default]. rewrite Hdev.
      split; [done |].
      rewrite (filter_new_effects _ is_dispatch_effect) by (done || by intros []).
      cbn [List.filter is_CallListen app]. by rewrite Htr. }
  destruct (tryEnableMixin_outcomes this_id token supportedTypes platform d w)
    as [H | [H | [[[a Hreg] H] | [[e H] | [e H]]]]];
    rewrite H in Hs; try done.
  - erewrite bind_Ok in Hfeed by exact H.
    cbn [is_Setup is_AlreadySetup orb] in Hfeed. rewrite bind_ret in Hfeed.
    by apply (Htail w).
  - erewrite bind_Ok in Hfeed by exact H.
    cbn [is_Setup is_AlreadySetup orb] in Hfeed.
    unfold bind at 1 in Hfeed.
    rewrite (discover_and_bridge_registered supportedTypes d a _ Hreg) in Hfeed.
    destruct (discover a d) as [node|e]; [| done].
    by eapply Htail; [| | exact Hfeed].
  - by erewrite bind_Throw in Hfeed by exact H.
  - by erewrite bind_Throw in Hfeed by exact H.
Qed.

(** X20.  Sources the machine does not support are not dispatched: when
    the machine classifies the source of an event [NotSupported], absent
    sources included, the callback returns right after the evaluation; no
    adapter is looked up or called for the event and no listener is
    registered. *)
Theorem listen_callback_ignores_unsupported
    (source : option ScryptedDevice.t) (details : EventDetails) (data : JsValue)
    (w : World) :
  status_of (run source w) = Ok DeviceMixinStatus.NotSupported →
  feed source details data w = (Ok tt, world_of (run source w))
  ∧ devices (world_of (feed source details data w)) = devices w
  ∧ List.filter is_dispatch_effect (trace (world_of (feed source details data w)))
    = List.filter is_dispatch_effect (trace w).
Proof.
  intros Hs.
  assert (Hfeed : feed source details data w = (Ok tt, world_of (run source w))).
  { unfold listen_callback.
    destruct (run source w) as [[s|e] w1] eqn:Hrun; [| done].
    unfold status_of in Hs. cbn [fst] in Hs. simplify_eq.
    by erewrite bind_Ok by exact Hrun. }
  split; [exact Hfeed |]. rewrite Hfeed. unfold world_of. cbn [snd].
  destruct source as [d|]; [| done].
  destruct (tryEnableMixin_outcomes this_id token supportedTypes platform d w)
    as [H | [H | [[_ H] | [[e H] | [e H]]]]];
    rewrite H in Hs |- *; done.
Qed.

End StartupEffects.

(** ** The first version of the adapter contract *)

Section LegacyDispatch.

Variable supportedTypes : gmap string Legacy.SupportedType.

(** X21.  Under the first adapter contract, where [sendEvent] returns
    nothing, the dispatcher warns about every event that reaches an
    adapter, except on the two infrastructure interfaces: for a synced
    source of a registered category and an interface other than the
    platform's own, the dispatch logs the warning unless the interface is
    [Online] or [Battery], and it issues no command. *)
Theorem legacy_deviceListen_warns
    (d : ScryptedDevice.t) (details : EventDetails) (data : JsValue) (w : World)
    (a : Legacy.SupportedType) :
  ScryptedDevice.id d ∈ syncedDevices w →
  eventInterface details ≠ ScryptedInterface.ScryptedDevice →
  supportedTypes !! ScryptedDevice.type d = Some a →
  Legacy.sendEvent a d details data = Ok tt →
  status_of (Legacy.deviceListen supportedTypes (Some d) details data w) = Ok tt
  ∧ warnings (trace (world_of (Legacy.deviceListen supportedTypes (Some d) details data w)))
    = (if String.eqb (eventInterface details) ScryptedInterface.Online
          || String.eqb (eventInterface details) ScryptedInterface.Battery
       then []
       else [ConsoleWarn (not_supported_message details d)])
      ++ warnings (trace w)
  ∧ List.filter is_Command
      (trace (world_of (Legacy.deviceListen supportedTypes (Some d) details data w)))
    = List.filter is_Command (trace w).
Proof.
  intros Hin Hif Hreg Hsend.
  unfold Legacy.deviceListen, Array_includes. rewrite bind_gets.
  rewrite bool_decide_eq_true_2 by done. cbn [negb].
  apply String.eqb_neq in Hif. rewrite Hif.
  rewrite bind_emit, Hreg, bind_emit, Hsend, bind_lift_Ok. cbv zeta.
  cbn [truthy negb andb].
  destruct (String.eqb (eventInterface details) ScryptedInterface.Online);
    [| destruct (String.eqb (eventInterface details) ScryptedInterface.Battery)];
    cbn [truthy negb andb orb]; rewrite ?bind_gets;
    try destruct (DEBUG _); done.
Qed.

End LegacyDispatch.

(** ** Concrete runs for the further properties *)

Ltac by_computation := refine (bool_decide_unpack _ _); vm_compute; exact I.





Lemma storage_set_get_witness :
  Storage.get string Cases.text_fromJson ["a"; "b"] "x"
    (snd (Storage.set string Cases.text_toJson ["a"; "b"] "x" "v" ∅))
  = (Ok (Some "v"), snd (Storage.set string Cases.text_toJson ["a"; "b"] "x" "v" ∅)).
Proof.
  apply (storage_set_get string Cases.text_toJson Cases.text_fromJson
           ["a"; "b"] "x" "v" ∅).
  - intros v. reflexivity.
  - vm_compute. reflexivity.
Defined.

Lemma storage_get_delete_witness :
  Storage.get string Cases.text_fromJson ["a"] "x"
    (snd (Storage.delete ["a"] "x" {["a.x" := "1"]}))
  = (Ok None, snd (Storage.delete ["a"] "x" {["a.x" := "1"]})).
Proof.
  assert (Hk : buildStorageKey ["a"] "x" = Ok "a.x") by reflexivity.
  exact (proj1 (proj2 (proj2 (storage_get_delete string Cases.text_toJson
                                Cases.text_fromJson
                                ["a"] "x" "a.x" {["a.x" := "1"]} Hk)))).
Defined.

Lemma storage_locations_independent_witness :
  "a.x" ≠ "a.y"
  ∧ fst (Storage.get string Cases.text_fromJson ["a"] "y"
           (snd (Storage.set string Cases.text_toJson ["a"] "x" "v" {["a.y" := "w"]})))
    = fst (Storage.get string Cases.text_fromJson ["a"] "y" {["a.y" := "w"]}).
Proof.
  assert (Hf : Forall dot_free ["a"]) by (repeat constructor).
  assert (Hx : dot_free "x") by reflexivity.
  assert (Hy : dot_free "y") by reflexivity.
  assert (Hne : (["a"], "x") ≠ (["a"], "y")) by discriminate.
  assert (Hk : buildStorageKey ["a"] "x" = Ok "a.x") by reflexivity.
  assert (Hk' : buildStorageKey ["a"] "y" = Ok "a.y") by reflexivity.
  destruct (storage_locations_independent string Cases.text_toJson Cases.text_fromJson
              ["a"] ["a"] "x" "y" "a.x" "a.y" "v" {["a.y" := "w"]}
              Hf Hf Hx Hy Hne Hk Hk') as (H1 & H2 & _).
  split; [exact H1 | exact H2].
Defined.

Lemma storage_key_alias_witness :
  buildStorageKey (["a"] ++ ["b"]) "c" = buildStorageKey ["a"] "b.c"
  ∧ fst (Storage.get string Cases.text_fromJson ["a"] "b.c"
           (snd (Storage.set string Cases.text_toJson (["a"] ++ ["b"]) "c" "v" ∅)))
    = Ok (Some "v").
Proof.
  assert (Hne : ["a"] ≠ []) by discriminate.
  assert (Hk : "c" ≠ "") by discriminate.
  assert (Hm : ¬ malformed_context (join "." (["a"] ++ ["b"]))).
  { rewrite <- buildStorageKey_guard. vm_compute. discriminate. }
  destruct (storage_key_alias string Cases.text_toJson Cases.text_fromJson
              ["a"] "b" "c" "v" ∅ Hne Hk Hm) as (H1 & _ & H2).
  split; [exact H1 | exact H2].
Defined.

Lemma tryEnableMixin_platform_calls_witness :
  trace (enrolled Scenario.plugin includeToken Scenario.lamp Scenario.fresh)
  = [Platform (SetMixins "1" ["matter"]); Platform (GetComponent "plugins");
     RegistryHas "Switch"]
  ∧ record_of (enrolled Scenario.plugin includeToken Scenario.lamp Scenario.fresh)
    = <["1" := includeToken]> (record_of Scenario.fresh).
Proof.
  assert (Hrun : tryEnableMixin Scenario.plugin includeToken registered_types
                   Scenario.accepting (Some Scenario.lamp) Scenario.fresh
                 = (Ok DeviceMixinStatus.Setup,
                    enrolled Scenario.plugin includeToken Scenario.lamp Scenario.fresh))
    by (vm_compute; reflexivity).
  destruct (tryEnableMixin_platform_calls Scenario.plugin includeToken registered_types
              Scenario.accepting Scenario.lamp Scenario.fresh _ _ Hrun) as (H1 & H2 & _).
  split; [exact H1 | exact H2].
Defined.

Lemma tryEnableMixin_frame_witness :
  record_of (world_of (tryEnableMixin Scenario.plugin includeToken registered_types
                         Scenario.accepting (Some Scenario.lamp) Scenario.fresh)) !! "2"
  = None
  ∧ systemState (world_of (tryEnableMixin Scenario.plugin includeToken registered_types
                             Scenario.accepting (Some Scenario.lamp) Scenario.fresh)) !! "2"
    = Some Scenario.bulb.
Proof.
  assert (Hk : "2" ≠ ScryptedDevice.id Scenario.lamp) by discriminate.
  destruct (tryEnableMixin_frame Scenario.plugin includeToken registered_types
              Scenario.accepting Scenario.lamp Scenario.fresh "2" Hk) as (H1 & H2 & _).
  split; [exact H1 | exact H2].
Defined.

Lemma release_then_evaluate_witness :
  releaseMixin Scenario.plugin "1" Cases.released_lamp
  = (Ok ["Device removed from Matter Bridge: Lamp."], Cases.released_lamp)
  ∧ tryEnableMixin Scenario.plugin includeToken registered_types (Scenario.rejecting "1")
      (Some Scenario.lamp) Cases.released_lamp
    = (Ok DeviceMixinStatus.AlreadySetup, Cases.released_lamp).
Proof.
  assert (Hd : systemState Cases.released_lamp !! "1" = Some Scenario.lamp)
    by (vm_compute; reflexivity).
  assert (Hin : Scenario.plugin ∉ mixins_of Scenario.lamp) by by_computation.
  assert (Hrec : record_of Cases.released_lamp !! ScryptedDevice.id Scenario.lamp
                 = Some includeToken) by (vm_compute; reflexivity).
  exact (release_then_evaluate Scenario.plugin includeToken registered_types
           (Scenario.rejecting "1") "1" Scenario.lamp Cases.released_lamp Hd Hin Hrec).
Defined.


Lemma deviceListen_debug_witness :
  List.filter is_ConsoleDebug
    (trace (world_of (deviceListen registered_types (Some Scenario.lamp)
                        Scenario.brightness_event (JsNumber 5) Cases.all_synced)))
  = [ConsoleDebug "Brightness" "brightness" "Switch"].
Proof.
  assert (Hin : ScryptedDevice.id Scenario.lamp ∈ syncedDevices Cases.all_synced)
    by by_computation.
  assert (Hif : eventInterface Scenario.brightness_event ≠ ScryptedInterface.ScryptedDevice)
    by (vm_compute; discriminate).
  assert (Hreg : registered_types !! ScryptedDevice.type Scenario.lamp = Some switch_adapter)
    by (vm_compute; reflexivity).
  assert (Hsend : sendEvent switch_adapter Scenario.lamp Scenario.brightness_event
                    (JsNumber 5) = ([], Ok EventStatus.NotSupported))
    by reflexivity.
  exact (deviceListen_debug registered_types Scenario.lamp Scenario.brightness_event
           (JsNumber 5) Cases.all_synced switch_adapter [] EventStatus.NotSupported
           Hin Hif Hreg Hsend).
Defined.

Lemma deviceListen_warnings_witness :
  warnings (trace (world_of (deviceListen registered_types (Some Scenario.lamp)
                               Scenario.onOff_event (JsBoolean false)
                               Scenario.synced_lamp)))
  = [ConsoleWarn "OnOff.on not supported for device Switch"].
Proof.
  assert (Hin : ScryptedDevice.id Scenario.lamp ∈ syncedDevices Scenario.synced_lamp)
    by by_computation.
  assert (Hif : eventInterface Scenario.onOff_event ≠ ScryptedInterface.ScryptedDevice)
    by (vm_compute; discriminate).
  assert (Hreg : registered_types !! ScryptedDevice.type Scenario.lamp = Some switch_adapter)
    by (vm_compute; reflexivity).
  assert (Hsend : sendEvent switch_adapter Scenario.lamp Scenario.onOff_event
                    (JsBoolean false) = ([turnOff], Ok EventStatus.Handled))
    by reflexivity.
  exact (deviceListen_warnings registered_types Scenario.lamp Scenario.onOff_event
           (JsBoolean false) Scenario.synced_lamp switch_adapter [turnOff]
           EventStatus.Handled Hin Hif Hreg Hsend).
Defined.

Lemma deviceListen_onOff_commands_witness :
  List.filter is_Command
    (trace (world_of (deviceListen registered_types (Some Scenario.lamp)
                        Scenario.onOff_event (JsBoolean true) Scenario.synced_lamp)))
  = [Command "1" turnOn].
Proof.
  assert (Hin : ScryptedDevice.id Scenario.lamp ∈ syncedDevices Scenario.synced_lamp)
    by by_computation.
  assert (Hif : eventInterface Scenario.onOff_event ≠ ScryptedInterface.ScryptedDevice)
    by (vm_compute; discriminate).
  assert (Hreg : registered_types !! ScryptedDevice.type Scenario.lamp = Some switch_adapter)
    by (vm_compute; reflexivity).
  exact (proj2 (deviceListen_onOff_commands registered_types Scenario.lamp
                  Scenario.onOff_event (JsBoolean true) Scenario.synced_lamp
                  switch_adapter Hin Hif Hreg (or_introl eq_refl))).
Defined.

Lemma start_throws_on_enrolled_device_without_adapter_witness :
  status_of (start Scenario.plugin includeToken registered_types Scenario.accepting
               ["6"; "1"] Cases.all_synced)
  = Throw undefined_discover.
Proof.
  assert (Hd : systemState Cases.all_synced !! "6" = Some Cases.attached_camera)
    by (vm_compute; reflexivity).
  assert (Hen : Scenario.plugin ∈ mixins_of Cases.attached_camera
                ∨ record_of Cases.all_synced !! ScryptedDevice.id Cases.attached_camera
                  = Some includeToken)
    by (left; by_computation).
  assert (Hreg : registered_types !! ScryptedDevice.type Cases.attached_camera = None)
    by (vm_compute; reflexivity).
  destruct (start_throws_on_enrolled_device_without_adapter Scenario.plugin includeToken
              registered_types Scenario.accepting "6" Cases.attached_camera ["1"]
              Cases.all_synced Hd Hen Hreg) as [_ H].
  by rewrite H.
Defined.



Lemma listen_callback_isolates_dispatch_witness :
  status_of (deviceListen Cases.failing_types (Some Scenario.plug) Scenario.onOff_event
               (JsBoolean true) Cases.all_synced)
  = Throw (ExternalError "sendEvent failed")
  ∧ status_of (listen_callback Scenario.plugin includeToken Cases.failing_types
                 Scenario.accepting (Some Scenario.plug) Scenario.onOff_event
                 (JsBoolean true) Cases.all_synced)
    = Ok tt.
Proof.
  split; [vm_compute; reflexivity |].
  apply (listen_callback_isolates_dispatch Scenario.plugin includeToken Cases.failing_types
           Scenario.accepting).
  vm_compute. reflexivity.
Defined.

Lemma listen_callback_registers_once_witness :
  List.filter is_CallListen
    (trace (world_of (listen_callback Scenario.plugin includeToken registered_types
                        Scenario.accepting (Some Scenario.plug) Scenario.onOff_event
                        (JsBoolean true) Scenario.fresh)))
  = [CallListen "3" "ObjectDetector"].
Proof.
  pose (r := listen_callback Scenario.plugin includeToken registered_types
               Scenario.accepting (Some Scenario.plug) Scenario.onOff_event
               (JsBoolean true) Scenario.fresh).
  assert (Hfeed : r = (Ok tt, world_of r)) by (vm_compute; reflexivity).
  assert (Hs : status_of (tryEnableMixin Scenario.plugin includeToken registered_types
                            Scenario.accepting (Some Scenario.plug) Scenario.fresh)
               ≠ Ok DeviceMixinStatus.NotSupported)
    by (vm_compute; discriminate).
  exact (proj2 (listen_callback_registers_once Scenario.plugin includeToken
                  registered_types Scenario.accepting Scenario.plug Scenario.onOff_event
                  (JsBoolean true) Scenario.fresh (world_of r) Hfeed Hs)).
Defined.

Lemma listen_callback_ignores_unsupported_witness :
  trace (world_of (listen_callback Scenario.plugin includeToken registered_types
                     Scenario.accepting (Some Scenario.camera) Scenario.onOff_event
                     (JsBoolean true) Cases.all_synced))
  = [RegistryHas "Camera"].
Proof.
  assert (Hs : status_of (tryEnableMixin Scenario.plugin includeToken registered_types
                            Scenario.accepting (Some Scenario.camera) Cases.all_synced)
               = Ok DeviceMixinStatus.NotSupported)
    by (vm_compute; reflexivity).
  destruct (listen_callback_ignores_unsupported Scenario.plugin includeToken
              registered_types Scenario.accepting (Some Scenario.camera)
              Scenario.onOff_event (JsBoolean true) Cases.all_synced Hs) as [H _].
  by rewrite H.
Defined.

Lemma legacy_deviceListen_warns_witness :
  warnings (trace (world_of (Legacy.deviceListen Cases.legacy_types (Some Scenario.lamp)
                               Scenario.onOff_event (JsBoolean true)
                               Scenario.synced_lamp)))
  = [ConsoleWarn "OnOff.on not supported for device Switch"]
  ∧ warnings (trace (world_of (Legacy.deviceListen Cases.legacy_types (Some Scenario.lamp)
                                 Cases.online_event (JsBoolean true)
                                 Scenario.synced_lamp)))
    = [].
Proof.
  assert (Hin : ScryptedDevice.id Scenario.lamp ∈ syncedDevices Scenario.synced_lamp)
    by by_computation.
  assert (Hreg : Cases.legacy_types !! ScryptedDevice.type Scenario.lamp
                 = Some Legacy.switch_adapter)
    by (vm_compute; reflexivity).
  split.
  - refine (proj1 (proj2 (legacy_deviceListen_warns Cases.legacy_types Scenario.lamp
                            Scenario.onOff_event (JsBoolean true) Scenario.synced_lamp
                            Legacy.switch_adapter Hin _ Hreg eq_refl))).
    vm_compute. discriminate.
  - refine (proj1 (proj2 (legacy_deviceListen_warns Cases.legacy_types Scenario.lamp
                            Cases.online_event (JsBoolean true) Scenario.synced_lamp
                            Legacy.switch_adapter Hin _ Hreg eq_refl))).
    vm_compute. discriminate.
Defined.
